(** * svelte-otel-app: the infinite canvas core

    A shallow embedding of the viewport transform, the culling test, the
    debounced fetch, the widget store merge and the mock network service:
    [src/lib/components/InfiniteCanvas.svelte], [src/lib/MockApiService.ts],
    [src/lib/stores.ts], [src/lib/types.ts], [src/routes/+page.svelte] and
    the web-vitals callback of [src/lib/tracing.ts].

    - JavaScript numbers are exact rationals ([Q]), so results about
      arithmetic hold up to floating-point rounding.  Module [F64] repeats the
      pan update, the wheel arithmetic and the culling test on IEEE 754
      binary64 numbers, the arithmetic the browser runs, for the inputs where
      rounding or the exact value matters.
    - [renderedAt] is the transform of the markup: where the canvas draws a
      world point.  The handlers convert with [world = screen / zoom - pan],
      the markup draws with [screen = world * zoom + pan].
    - [Math.random] is a stream of samples threaded through a state monad;
      [Number.prototype.toString(36)] is a parameter.
    - Arrays are values by reference in a heap, so that "the same array" can
      be told from "an equal array".
    - The event loop is a step function on the application state: stores,
      component variables, pending timeouts and pending promises.  Time is
      not modelled: a pending timeout or promise may fire at any turn.
    - Console logging and tracing spans have no effect on the state and are
      left out; [fetchInitialWidgets] of the page is never called. *)

From Stdlib Require Import QArith Qround Lqa.
From Stdlib Require Import PrimFloat Ascii.
From stdpp Require Import gmap strings list pretty.

Open Scope Q_scope.

(** ** Numbers *)

(** [a < b] on JavaScript numbers, as a boolean. *)
Definition Qlt_bool (a b : Q) : bool := negb (Qle_bool b a).

(** [Math.max] and [Math.min]. *)
Definition Math_max (a b : Q) : Q := if Qle_bool a b then b else a.
Definition Math_min (a b : Q) : Q := if Qle_bool a b then a else b.

(** [Math.floor(r * n)] used as an array index. *)
Definition floorIndex (r : Q) (n : nat) : nat := Z.to_nat (Qfloor (r * inject_Z (Z.of_nat n))).

(** ** src/lib/types.ts *)

Record WidgetData := mkWidget {
  id : string;
  title : string;
  content : string;
  x : Q;
  y : Q
}.

Record CanvasTransform := mkTransform {
  panX : Q;
  panY : Q;
  zoom : Q
}.

Inductive ApiErrorType := NetworkError | APIError | NotFoundError.

(** The [requestParams] objects the mock service builds. *)
Inductive RequestParams :=
| WidgetParams (widgetId : string)
| BatchParams (count : nat) (currentPanX currentPanY currentZoom : Q).

Record SimulatedError := mkError {
  message : string;
  errorType : ApiErrorType;
  status : option Z;
  timestamp : string;
  requestParams : RequestParams;
  simulatedStackTrace : string
}.

(** How a promise of the mock service settles. *)
Inductive Settled (A : Type) :=
| Resolved (value : A)
| Rejected (error : SimulatedError).
Arguments Resolved {A} value.
Arguments Rejected {A} error.

Definition isRejected {A} (o : Settled A) : bool :=
  match o with Rejected _ => true | Resolved _ => false end.

(** ** [Math.random]: a state monad over the stream of samples *)

Definition Rand (A : Type) : Type := (nat -> Q) -> nat -> A * nat.

Definition ret {A} (a : A) : Rand A := fun _ i => (a, i).

Definition bind {A B} (m : Rand A) (k : A -> Rand B) : Rand B :=
  fun rnd i => let '(a, j) := m rnd i in k a rnd j.

Notation "'let*' x ':=' m 'in' k" := (bind m (fun x => k))
  (at level 10, x name, m at level 100, k at level 200).

(** One call of [Math.random()]: the next sample of the stream. *)
Definition Math_random : Rand Q := fun rnd i => (rnd i, S i).

(** The samples [Math.random] can return. *)
Definition unit_samples (rnd : nat -> Q) : Prop := forall i, 0 <= rnd i /\ rnd i < 1.

(** ** src/lib/MockApiService.ts *)

Definition MOCK_WIDGET_TITLES : list string :=
  ["Alpha Widget"; "Bravo Item"; "Charlie Component"; "Delta Module"; "Echo Element"].

Definition MOCK_WIDGET_CONTENTS : list string :=
  ["This is some detailed content for the widget.";
   "Another piece of insightful information.";
   "Lorem ipsum dolor sit amet, consectetur adipiscing elit.";
   "Sed do eiusmod tempor incididunt ut labore et dolore magna aliqua.";
   "Ut enim ad minim veniam, quis nostrud exercitation ullamco laboris nisi ut aliquip ex ea commodo consequat."].

(** [arr[Math.floor(Math.random() * arr.length)]] inside a template string;
    for a sample in [[0, 1)] the index is always in range. *)
Definition pick (arr : list string) (r : Q) : string :=
  nth (floorIndex r (length arr)) arr "undefined".

Definition newline : string := String "010"%char EmptyString.

Record ErrorTemplate := mkTemplate {
  tType : ApiErrorType;
  tMessage : string;
  tStatus : option Z
}.

Definition errorTypes : list ErrorTemplate :=
  [ mkTemplate NetworkError "Network timeout. Please check your connection." None;
    mkTemplate APIError "Internal Server Error" (Some 500%Z);
    mkTemplate NotFoundError "Resource Not Found" (Some 404%Z);
    mkTemplate APIError "Invalid request parameters" (Some 400%Z) ].

Section MockApiService.

(** [Number.prototype.toString(36)], left abstract. *)
Variable toString36 : Q -> string.

(** [Math.random().toString(36).substring(2, 15)]. *)
Definition generateRandomId : Rand string :=
  let* r := Math_random in
  ret (String.substring 2 13 (toString36 r)).

(** [Math.random() < this.errorRate]; [errorRate] mirrors the
    [errorProbability] store through the subscription of the constructor. *)
Definition shouldSimulateError (errorRate : Q) : Rand bool :=
  let* r := Math_random in
  ret (Qlt_bool r errorRate).

Definition simulateError (now : string) (params : RequestParams) : Rand SimulatedError :=
  let* r := Math_random in
  let randomErrorType :=
    nth (floorIndex r (length errorTypes)) errorTypes
        (mkTemplate NetworkError "Network timeout. Please check your connection." None) in
  let* l1 := Math_random in
  let* l2 := Math_random in
  ret {| message := tMessage randomErrorType;
          errorType := tType randomErrorType;
          status := tStatus randomErrorType;
          timestamp := now;
          requestParams := params;
          simulatedStackTrace :=
            "Error: " +:+ tMessage randomErrorType +:+ newline +:+
            "    at MockApiService.simulateError (MockApiService.ts:" +:+
            pretty (Qfloor (l1 * 20) + 50)%Z +:+ ")" +:+ newline +:+
            "    at <calling_method> (MockApiService.ts:" +:+
            pretty (Qfloor (l2 * 20) + 80)%Z +:+ ")" |}.

(** The [setTimeout] callback of [fetchWidgetData]. *)
Definition fetchWidgetData_settle (errorRate : Q) (now : string) (widgetId : string)
  : Rand (Settled WidgetData) :=
  let* err := shouldSimulateError errorRate in
  if err then
    let* e := simulateError now (WidgetParams widgetId) in
    ret (Rejected e)
  else
    let* t := Math_random in
    let* c := Math_random in
    let* rx := Math_random in
    let* ry := Math_random in
    ret (Resolved {| id := widgetId;
                      title := pick MOCK_WIDGET_TITLES t;
                      content := pick MOCK_WIDGET_CONTENTS c;
                      x := inject_Z (Qfloor (rx * 1000 - 500));
                      y := inject_Z (Qfloor (ry * 1000 - 500)) |}).

(** [fetchWidgetData]: the latency in milliseconds and how the promise
    settles after it. *)
Definition fetchWidgetData (errorRate : Q) (now : string) (widgetId : string)
  : Rand (Q * Settled WidgetData) :=
  let* l := Math_random in
  let latency := l * 800 + 200 in
  let* o := fetchWidgetData_settle errorRate now widgetId in
  ret (latency, o).

(** The body of [for (let i = 0; i < count; i++)]: [todo] iterations are
    left, the next one has index [i]. *)
Fixpoint spawnWidgets (todo i : nat) (currentPanX currentPanY currentZoom : Q)
  : Rand (list WidgetData) :=
  match todo with
  | O => ret []
  | S todo' =>
      let spawnRadius := 300 / currentZoom in
      let* wid := generateRandomId in
      let* t := Math_random in
      let* c := Math_random in
      let* rx := Math_random in
      let* ry := Math_random in
      let w := {| id := wid;
                  title := pick MOCK_WIDGET_TITLES t +:+ " #" +:+ pretty (i + 1)%nat;
                  content := pick MOCK_WIDGET_CONTENTS c;
                  x := currentPanX + (rx * spawnRadius * 2 - spawnRadius);
                  y := currentPanY + (ry * spawnRadius * 2 - spawnRadius) |} in
      let* rest := spawnWidgets todo' (S i) currentPanX currentPanY currentZoom in
      ret (w :: rest)
  end.

(** The [setTimeout] callback of [fetchAllWidgets]. *)
Definition fetchAllWidgets_settle (errorRate : Q) (now : string)
    (count : nat) (currentPanX currentPanY currentZoom : Q)
  : Rand (Settled (list WidgetData)) :=
  let* err := shouldSimulateError errorRate in
  if err then
    let* e := simulateError now (BatchParams count currentPanX currentPanY currentZoom) in
    ret (Rejected e)
  else
    let* newWidgets := spawnWidgets count 0 currentPanX currentPanY currentZoom in
    ret (Resolved newWidgets).

Definition fetchAllWidgets (errorRate : Q) (now : string)
    (count : nat) (currentPanX currentPanY currentZoom : Q)
  : Rand (Q * Settled (list WidgetData)) :=
  let* l := Math_random in
  let latency := l * 1500 + 500 in
  let* o := fetchAllWidgets_settle errorRate now count currentPanX currentPanY currentZoom in
  ret (latency, o).

(** [setErrorProbability]: the store is written only for a value in [[0, 1]]. *)
Definition setErrorProbability (probability current : Q) : Q :=
  if Qle_bool 0 probability && Qle_bool probability 1 then probability else current.

End MockApiService.

(** ** src/lib/stores.ts *)

(** JavaScript arrays are values by reference: the [widgets] store holds a
    location of the array heap, and every array literal or spread allocates
    a new location. *)
Abbreviation loc := nat (only parsing).
Abbreviation Heap := (list (list WidgetData)) (only parsing).

Definition deref (h : Heap) (l : loc) : list WidgetData := default [] (h !! l).

Definition alloc (h : Heap) (v : list WidgetData) : Heap * loc := (h ++ [v], length h).

Record Stores := mkStores {
  canvasTransform : CanvasTransform;
  widgets : loc;
  isLoadingWidgets : bool;
  apiError : option string;
  errorProbability : Q
}.

(** ** Component state of InfiniteCanvas.svelte *)

Record Canvas := mkCanvas {
  isPanning : bool;
  lastPanX : Q;
  lastPanY : Q;
  debounceTimer : option nat;
  viewportWidth : Q;
  viewportHeight : Q
}.

(** ** The browser side: array heap, pending timeouts, pending promises *)

Inductive Origin := InitialLoad | FetchMore | Interaction.

#[global] Instance Origin_eq_dec : EqDecision Origin.
Proof. solve_decision. Defined.

(** A call of [fetchAllWidgets] whose promise has not settled yet. *)
Record Pending := mkPending {
  origin : Origin;
  count : nat;
  centerX : Q;
  centerY : Q;
  atZoom : Q
}.

Record Runtime := mkRuntime {
  heap : Heap;
  timeouts : list nat;
  nextTimeout : nat;
  inflight : list Pending
}.

Record App := mkApp {
  stores : Stores;
  canvas : Canvas;
  runtime : Runtime
}.

Definition with_stores (f : Stores -> Stores) (s : App) : App :=
  mkApp (f (stores s)) (canvas s) (runtime s).
Definition with_canvas (f : Canvas -> Canvas) (s : App) : App :=
  mkApp (stores s) (f (canvas s)) (runtime s).
Definition with_runtime (f : Runtime -> Runtime) (s : App) : App :=
  mkApp (stores s) (canvas s) (f (runtime s)).

Definition set_canvasTransform (t : CanvasTransform) (st : Stores) : Stores :=
  mkStores t (widgets st) (isLoadingWidgets st) (apiError st) (errorProbability st).
Definition set_widgets (l : loc) (st : Stores) : Stores :=
  mkStores (canvasTransform st) l (isLoadingWidgets st) (apiError st) (errorProbability st).
Definition set_isLoadingWidgets (b : bool) (st : Stores) : Stores :=
  mkStores (canvasTransform st) (widgets st) b (apiError st) (errorProbability st).
Definition set_apiError (e : option string) (st : Stores) : Stores :=
  mkStores (canvasTransform st) (widgets st) (isLoadingWidgets st) e (errorProbability st).
Definition set_errorProbability (p : Q) (st : Stores) : Stores :=
  mkStores (canvasTransform st) (widgets st) (isLoadingWidgets st) (apiError st) p.

Definition set_isPanning (b : bool) (c : Canvas) : Canvas :=
  mkCanvas b (lastPanX c) (lastPanY c) (debounceTimer c) (viewportWidth c) (viewportHeight c).
Definition set_lastPan (px py : Q) (c : Canvas) : Canvas :=
  mkCanvas (isPanning c) px py (debounceTimer c) (viewportWidth c) (viewportHeight c).
Definition set_debounceTimer (t : option nat) (c : Canvas) : Canvas :=
  mkCanvas (isPanning c) (lastPanX c) (lastPanY c) t (viewportWidth c) (viewportHeight c).
Definition set_viewport (w h : Q) (c : Canvas) : Canvas :=
  mkCanvas (isPanning c) (lastPanX c) (lastPanY c) (debounceTimer c) w h.

Definition set_heap (h : Heap) (r : Runtime) : Runtime :=
  mkRuntime h (timeouts r) (nextTimeout r) (inflight r).
Definition set_timeouts (ts : list nat) (r : Runtime) : Runtime :=
  mkRuntime (heap r) ts (nextTimeout r) (inflight r).
Definition set_nextTimeout (n : nat) (r : Runtime) : Runtime :=
  mkRuntime (heap r) (timeouts r) n (inflight r).
Definition set_inflight (ps : list Pending) (r : Runtime) : Runtime :=
  mkRuntime (heap r) (timeouts r) (nextTimeout r) ps.

(** The array the [widgets] store currently holds. *)
Definition currentWidgets (s : App) : list WidgetData :=
  deref (heap (runtime s)) (widgets (stores s)).

(** ** Debounce *)

Definition DEBOUNCE_DELAY : Q := 400.

(** The timeout [handle] is no longer pending (a handle that is not
    pending is ignored). *)
Definition dropTimeout (handle : nat) (s : App) : App :=
  with_runtime (fun r => set_timeouts (filter (fun h => h <> handle) (timeouts r)) r) s.

(** [clearTimeout(handle)]. *)
Definition clearTimeout (handle : nat) (s : App) : App := dropTimeout handle s.

(** [window.setTimeout(callback, DEBOUNCE_DELAY)]: the new handle and the
    state in which it is pending.  The only callback ever registered is
    [fetchWidgetsForCurrentView]. *)
Definition setTimeout (s : App) : nat * App :=
  let h := nextTimeout (runtime s) in
  (h, with_runtime (fun r => set_nextTimeout (S h) (set_timeouts (timeouts r ++ [h]) r)) s).

(** [if (debounceTimer)]: [null] and the number 0 are falsy. *)
Definition truthy (t : option nat) : bool :=
  match t with
  | Some h => negb (h =? 0)%nat
  | None => false
  end.

Definition triggerDebouncedFetch (s : App) : App :=
  let s1 :=
    if truthy (debounceTimer (canvas s))
    then clearTimeout (default 0%nat (debounceTimer (canvas s))) s
    else s in
  let '(h, s2) := setTimeout s1 in
  with_canvas (set_debounceTimer (Some h)) s2.

(** ** Pan *)

(** [canvasTransform.update(current => ({...current,
      panX: current.panX + dx / current.zoom,
      panY: current.panY + dy / current.zoom}))]. *)
Definition panBy (dx dy : Q) (current : CanvasTransform) : CanvasTransform :=
  {| panX := panX current + dx / zoom current;
     panY := panY current + dy / zoom current;
     zoom := zoom current |}.

Definition handleMouseDown (button : Z) (clientX clientY : Q) (s : App) : App :=
  if negb (button =? 0)%Z then s
  else with_canvas (fun c => set_lastPan clientX clientY (set_isPanning true c)) s.

Definition handleMouseMove (clientX clientY : Q) (s : App) : App :=
  if negb (isPanning (canvas s)) then s
  else
    let dx := clientX - lastPanX (canvas s) in
    let dy := clientY - lastPanY (canvas s) in
    let s1 := with_stores (fun st => set_canvasTransform (panBy dx dy (canvasTransform st)) st) s in
    let s2 := with_canvas (set_lastPan clientX clientY) s1 in
    triggerDebouncedFetch s2.

Definition handleMouseUp (s : App) : App :=
  if isPanning (canvas s) then with_canvas (set_isPanning false) s else s.

(** ** Zoom *)

(** Cursor position in world coordinates, as [handleWheel] computes it:
    [(mouseInViewport / zoom) - pan] on each axis. *)
Definition screenToWorld (t : CanvasTransform) (sx sy : Q) : Q * Q :=
  (sx / zoom t - panX t, sy / zoom t - panY t).

(** [newZoom]: the zoom a wheel event asks for, before clamping. *)
Definition requestedZoom (oldZoom deltaY : Q) : Q :=
  let zoomFactor := 1.15 in
  if Qlt_bool deltaY 0 then oldZoom * zoomFactor else oldZoom / zoomFactor.

(** [clampedZoom]: the zoom [handleWheel] settles on. *)
Definition wheelZoom (oldZoom deltaY : Q) : Q :=
  let newZoom := requestedZoom oldZoom deltaY in
  Math_max 0.1 (Math_min newZoom 10).

Definition handleWheel (clientX clientY deltaY rectLeft rectTop : Q) (s : App) : App :=
  let transform := canvasTransform (stores s) in
  let oldZoom := zoom transform in
  let clampedZoom := wheelZoom oldZoom deltaY in
  if Qeq_bool clampedZoom oldZoom then s
  else
    let mouseXInViewport := clientX - rectLeft in
    let mouseYInViewport := clientY - rectTop in
    let '(mouseXWorld, mouseYWorld) := screenToWorld transform mouseXInViewport mouseYInViewport in
    let newPanX := mouseXInViewport / clampedZoom - mouseXWorld in
    let newPanY := mouseYInViewport / clampedZoom - mouseYWorld in
    let s1 := with_stores (set_canvasTransform
                {| panX := newPanX; panY := newPanY; zoom := clampedZoom |}) s in
    triggerDebouncedFetch s1.

Definition handleResize (clientWidth clientHeight : Q) (s : App) : App :=
  triggerDebouncedFetch (with_canvas (set_viewport clientWidth clientHeight) s).

(** ** Viewport culling *)

Definition isWidgetInView (viewportWidth viewportHeight : Q)
    (widget : WidgetData) (currentTransform : CanvasTransform) : bool :=
  let widgetWidthWorld := 220 in
  let widgetHeightWorld := 150 in
  let buffer := 100 / zoom currentTransform in
  let w_left := x widget in
  let w_right := x widget + widgetWidthWorld in
  let w_top := y widget in
  let w_bottom := y widget + widgetHeightWorld in
  let v_left := - panX currentTransform - buffer in
  let v_top := - panY currentTransform - buffer in
  let v_right := - panX currentTransform + viewportWidth / zoom currentTransform + buffer in
  let v_bottom := - panY currentTransform + viewportHeight / zoom currentTransform + buffer in
  Qlt_bool w_left v_right && Qlt_bool v_left w_right &&
  Qlt_bool w_top v_bottom && Qlt_bool v_top w_bottom.

(** ** Widget store updates *)

(** [widgetStore.update(fn)]: the callback receives the array the store
    holds and the store keeps the array it returns. *)
Definition widgets_update (fn : Heap -> loc -> Heap * loc) (s : App) : App :=
  let '(h, l) := fn (heap (runtime s)) (widgets (stores s)) in
  with_stores (set_widgets l) (with_runtime (set_heap h) s).

(** The callback of the debounced fetch:
    [current => { existingIds = new Set(current.map(w => w.id)); ... }]. *)
Definition mergeNewWidgets (newWidgets : loc) (h : Heap) (current : loc) : Heap * loc :=
  let existingIds : gset string := list_to_set (id <$> deref h current) in
  let trulyNewWidgets := filter (fun nw => id nw ∉ existingIds) (deref h newWidgets) in
  let addedCount := length trulyNewWidgets in
  if (0 <? addedCount)%nat
  then alloc h (deref h current ++ trulyNewWidgets)
  else (h, current).

(** The callback of the page: [currentWidgets => [...currentWidgets, ...newWidgets]]. *)
Definition appendWidgets (newWidgets : loc) (h : Heap) (current : loc) : Heap * loc :=
  alloc h (deref h current ++ deref h newWidgets).

(** [a || b] on strings: the empty string is falsy. *)
Definition or_else (a b : string) : string := if decide (a = "") then b else a.

(** ** Debounced fetch: [fetchWidgetsForCurrentView] *)

(** Up to the [await]. *)
Definition fetchWidgetsForCurrentView (s : App) : App :=
  if isLoadingWidgets (stores s) then s
  else
    let s1 := with_stores (fun st => set_apiError None (set_isLoadingWidgets true st)) s in
    let transform := canvasTransform (stores s1) in
    let worldViewCenterX := viewportWidth (canvas s1) / 2 / zoom transform - panX transform in
    let worldViewCenterY := viewportHeight (canvas s1) / 2 / zoom transform - panY transform in
    with_runtime (fun r =>
      set_inflight (inflight r ++
        [mkPending Interaction 1 worldViewCenterX worldViewCenterY (zoom transform)]) r) s1.

(** After the [await]: [try] continuation or [catch], then [finally]. *)
Definition fetchWidgetsForCurrentView_resume (o : Settled loc) (s : App) : App :=
  let s1 :=
    match o with
    | Resolved newWidgets => widgets_update (mergeNewWidgets newWidgets) s
    | Rejected e =>
        with_stores (set_apiError
          (Some ("Interaction fetch failed: " +:+ or_else (message e) "Unknown error"))) s
    end in
  with_canvas (set_debounceTimer None) (with_stores (set_isLoadingWidgets false) s1).

(** ** src/routes/+page.svelte *)

Definition fetchMoreWidgets (innerWidth innerHeight : Q) (s : App) : App :=
  let s1 := with_stores (fun st => set_apiError None (set_isLoadingWidgets true st)) s in
  let t := canvasTransform (stores s1) in
  with_runtime (fun r =>
    set_inflight (inflight r ++
      [mkPending FetchMore 3 (- panX t + innerWidth / 2 / zoom t)
                             (- panY t + innerHeight / 2 / zoom t) (zoom t)]) r) s1.

Definition fetchMoreWidgets_resume (o : Settled loc) (s : App) : App :=
  let s1 :=
    match o with
    | Resolved newWidgets => widgets_update (appendWidgets newWidgets) s
    | Rejected e =>
        with_stores (set_apiError (Some (or_else (message e) "An unknown error occurred."))) s
    end in
  with_stores (set_isLoadingWidgets false) s1.

(** The [onMount] callback of the page, up to its [await]. *)
Definition onMount (innerWidth innerHeight : Q) (s : App) : App :=
  let s1 := with_stores (fun st => set_apiError None (set_isLoadingWidgets true st)) s in
  let t := canvasTransform (stores s1) in
  let initialWorldCenterX := innerWidth / 2 / zoom t - panX t in
  let initialWorldCenterY := innerHeight / 2 / zoom t - panY t in
  with_runtime (fun r =>
    set_inflight (inflight r ++
      [mkPending InitialLoad 5 initialWorldCenterX initialWorldCenterY (zoom t)]) r) s1.

(** [widgets.set(newWidgets)] on success. *)
Definition onMount_resume (o : Settled loc) (s : App) : App :=
  let s1 :=
    match o with
    | Resolved newWidgets => with_stores (set_widgets newWidgets) s
    | Rejected e =>
        with_stores (set_apiError (Some (or_else (message e) "An unknown error occurred."))) s
    end in
  with_stores (set_isLoadingWidgets false) s1.

(** [parseFloat] of a slider value is a number; the guard is repeated in
    [setErrorProbability]. *)
Definition handleProbabilityChange (newProb : Q) (s : App) : App :=
  if Qle_bool 0 newProb && Qle_bool newProb 1
  then with_stores (fun st =>
         set_errorProbability (setErrorProbability newProb (errorProbability st)) st) s
  else s.

(** ** The running application *)

(** stores.ts at load time; location 0 holds the empty array of [writable([])]. *)
Definition loaded : App :=
  {| stores := {| canvasTransform := {| panX := 0; panY := 0; zoom := 1 |};
                  widgets := 0%nat;
                  isLoadingWidgets := false;
                  apiError := None;
                  errorProbability := 0.15 |};
     canvas := {| isPanning := false; lastPanX := 0; lastPanY := 0;
                  debounceTimer := None;
                  viewportWidth := 0; viewportHeight := 0 |};
     runtime := {| heap := [[]]; timeouts := []; nextTimeout := 1%nat; inflight := [] |} |}.

(** After mounting: the canvas has read its size and attached its
    listeners, then the page has started the initial load. *)
Definition mounted (clientWidth clientHeight innerWidth innerHeight : Q) : App :=
  onMount innerWidth innerHeight (with_canvas (set_viewport clientWidth clientHeight) loaded).

Inductive Event :=
| MouseDown (button : Z) (clientX clientY : Q)
| MouseMove (clientX clientY : Q)
| MouseUp
| Wheel (clientX clientY deltaY rectLeft rectTop : Q)
| Resize (clientWidth clientHeight : Q)
| TimeoutFires (handle : nat)
| ClickFetchMore (innerWidth innerHeight : Q)
| ProbabilityInput (newProb : Q)
| DismissError
| Settle (k : nat) (now : string) (rnd : nat -> Q).

Section Application.

Variable toString36 : Q -> string.

(** How the mock service settles the [k]-th pending call, with the clock
    reading [now] and the samples [rnd]. *)
Definition settlement (s : App) (k : nat) (now : string) (rnd : nat -> Q)
  : option (Pending * Settled (list WidgetData)) :=
  match inflight (runtime s) !! k with
  | Some p =>
      Some (p, fst (fetchAllWidgets_settle toString36 (errorProbability (stores s)) now
                      (count p) (centerX p) (centerY p) (atZoom p) rnd 0%nat))
  | None => None
  end.

(** The promise of the pending call [p] settles with [o] and the function
    awaiting it resumes; a resolved batch is a newly allocated array. *)
Definition resume (p : Pending) (o : Settled (list WidgetData)) (s : App) : App :=
  let '(o', s1) :=
    match o with
    | Resolved newWidgets =>
        let '(h, l) := alloc (heap (runtime s)) newWidgets in
        (Resolved l, with_runtime (set_heap h) s)
    | Rejected e => (Rejected e, s)
    end in
  match origin p with
  | InitialLoad => onMount_resume o' s1
  | FetchMore => fetchMoreWidgets_resume o' s1
  | Interaction => fetchWidgetsForCurrentView_resume o' s1
  end.

Definition settle (k : nat) (now : string) (rnd : nat -> Q) (s : App) : option App :=
  match settlement s k now rnd with
  | Some (p, o) =>
      Some (resume p o (with_runtime (fun r => set_inflight (delete k (inflight r)) r) s))
  | None => None
  end.

(** One turn of the event loop; [None] when the event cannot happen in [s]
    (a timeout that is not pending, a disabled or absent button, a promise
    that does not exist). *)
Definition step (s : App) (ev : Event) : option App :=
  match ev with
  | MouseDown button clientX clientY => Some (handleMouseDown button clientX clientY s)
  | MouseMove clientX clientY => Some (handleMouseMove clientX clientY s)
  | MouseUp => Some (handleMouseUp s)
  | Wheel clientX clientY deltaY rectLeft rectTop =>
      Some (handleWheel clientX clientY deltaY rectLeft rectTop s)
  | Resize clientWidth clientHeight => Some (handleResize clientWidth clientHeight s)
  | TimeoutFires handle =>
      if decide (handle ∈ timeouts (runtime s))
      then Some (fetchWidgetsForCurrentView (dropTimeout handle s))
      else None
  | ClickFetchMore innerWidth innerHeight =>
      if isLoadingWidgets (stores s) then None
      else Some (fetchMoreWidgets innerWidth innerHeight s)
  | ProbabilityInput newProb => Some (handleProbabilityChange newProb s)
  | DismissError =>
      match apiError (stores s) with
      | Some m => if decide (m = "") then None else Some (with_stores (set_apiError None) s)
      | None => None
      end
  | Settle k now rnd => settle k now rnd s
  end.

(** States reachable from a mounted application through events that all
    satisfy [ok]. *)
Inductive reachable_by (ok : App -> Event -> Prop) : App -> Prop :=
| reach_mounted clientWidth clientHeight innerWidth innerHeight :
    reachable_by ok (mounted clientWidth clientHeight innerWidth innerHeight)
| reach_step s ev s' :
    reachable_by ok s -> ok s ev -> step s ev = Some s' -> reachable_by ok s'.

Definition reachable : App -> Prop := reachable_by (fun _ _ => True).

End Application.

Module F64.
(** The same update on binary64 numbers. *)
Record CanvasTransform := mkTransform {
  panX : float;
  panY : float;
  zoom : float
}.

Definition panBy (dx dy : float) (current : CanvasTransform) : CanvasTransform :=
  {| panX := PrimFloat.add (panX current) (PrimFloat.div dx (zoom current));
     panY := PrimFloat.add (panY current) (PrimFloat.div dy (zoom current));
     zoom := zoom current |}.

(** [Math.max] and [Math.min] on numbers that are not NaN. *)
Definition Math_max (a b : float) : float := if PrimFloat.ltb a b then b else a.
Definition Math_min (a b : float) : float := if PrimFloat.ltb b a then b else a.

(** The arithmetic of [handleWheel] on binary64 numbers: the transform the
    handler stores for a cursor at [(mouseXInViewport, mouseYInViewport)]. *)
#[warnings="-inexact-float"]
Definition wheelTransform (mouseXInViewport mouseYInViewport deltaY : float)
    (transform : CanvasTransform) : CanvasTransform :=
  let zoomFactor := 1.15%float in
  let oldZoom := zoom transform in
  let newZoom :=
    if PrimFloat.ltb deltaY 0 then PrimFloat.mul oldZoom zoomFactor
    else PrimFloat.div oldZoom zoomFactor in
  let clampedZoom := Math_max 0.1%float (Math_min newZoom 10) in
  if PrimFloat.eqb clampedZoom oldZoom then transform
  else
    let mouseXWorld := PrimFloat.sub (PrimFloat.div mouseXInViewport oldZoom) (panX transform) in
    let mouseYWorld := PrimFloat.sub (PrimFloat.div mouseYInViewport oldZoom) (panY transform) in
    {| panX := PrimFloat.sub (PrimFloat.div mouseXInViewport clampedZoom) mouseXWorld;
       panY := PrimFloat.sub (PrimFloat.div mouseYInViewport clampedZoom) mouseYWorld;
       zoom := clampedZoom |}.

(** Where the markup draws a world point: [translate(pan) scale(zoom)]
    with origin [0 0]. *)
Definition renderedAt (t : CanvasTransform) (wx wy : float) : float * float :=
  (PrimFloat.add (PrimFloat.mul wx (zoom t)) (panX t),
   PrimFloat.add (PrimFloat.mul wy (zoom t)) (panY t)).

(** [isWidgetInView] on binary64 numbers, for a widget at [(wx, wy)]. *)
Definition isWidgetInView (viewportWidth viewportHeight wx wy : float)
    (currentTransform : CanvasTransform) : bool :=
  let widgetWidthWorld := 220%float in
  let widgetHeightWorld := 150%float in
  let buffer := PrimFloat.div 100 (zoom currentTransform) in
  let w_left := wx in
  let w_right := PrimFloat.add wx widgetWidthWorld in
  let w_top := wy in
  let w_bottom := PrimFloat.add wy widgetHeightWorld in
  let v_left := PrimFloat.sub (PrimFloat.opp (panX currentTransform)) buffer in
  let v_top := PrimFloat.sub (PrimFloat.opp (panY currentTransform)) buffer in
  let v_right :=
    PrimFloat.add (PrimFloat.add (PrimFloat.opp (panX currentTransform))
                     (PrimFloat.div viewportWidth (zoom currentTransform))) buffer in
  let v_bottom :=
    PrimFloat.add (PrimFloat.add (PrimFloat.opp (panY currentTransform))
                     (PrimFloat.div viewportHeight (zoom currentTransform))) buffer in
  PrimFloat.ltb w_left v_right && PrimFloat.ltb v_left w_right &&
  PrimFloat.ltb w_top v_bottom && PrimFloat.ltb v_top w_bottom.
End F64.

(** ** What the markup draws *)

(** The canvas content is styled
    [transform: translate({panX}px, {panY}px) scale({zoom}); transform-origin: 0 0]:
    a world point is scaled by the zoom and then shifted by the pan, which is
    also what types.ts says of the pan ("the offset of the world origin (0,0)
    relative to the viewport's top-left corner").  This is the viewport
    position at which the world point [(wx, wy)] is drawn. *)
Definition renderedAt (t : CanvasTransform) (wx wy : Q) : Q * Q :=
  (wx * zoom t + panX t, wy * zoom t + panY t).

Record Rect := mkRect {
  r_left : Q;
  r_top : Q;
  r_right : Q;
  r_bottom : Q
}.

(** The widget's world rectangle: 220 by 150 units from its position. *)
Definition spec_widgetRect (w : WidgetData) : Rect :=
  {| r_left := x w; r_top := y w; r_right := x w + 220; r_bottom := y w + 150 |}.

(** A point strictly inside a rectangle. *)
Definition spec_interior (r : Rect) (px py : Q) : Prop :=
  r_left r < px /\ px < r_right r /\ r_top r < py /\ py < r_bottom r.

(** Some point inside the widget's rectangle is drawn inside the viewport. *)
Definition on_screen (vw vh : Q) (t : CanvasTransform) (w : WidgetData) : Prop :=
  exists wx wy,
    spec_interior (spec_widgetRect w) wx wy /\
    0 < fst (renderedAt t wx wy) /\ fst (renderedAt t wx wy) < vw /\
    0 < snd (renderedAt t wx wy) /\ snd (renderedAt t wx wy) < vh.

(** Every point inside the widget's rectangle is drawn more than [margin]
    pixels to the right of the viewport. *)
Definition right_of_viewport (vw margin : Q) (t : CanvasTransform) (w : WidgetData) : Prop :=
  forall wx wy,
    spec_interior (spec_widgetRect w) wx wy -> vw + margin < fst (renderedAt t wx wy).

(** ** The merge the store update is compared with *)

(** The incoming widgets whose id is not already present, in fetch order. *)
Definition spec_survivors (present incoming : list WidgetData) : list WidgetData :=
  filter (fun nw => id nw ∉ id <$> present) incoming.

(** ** Properties of the running application *)

(** The ids in the widget store, in store order. *)
Definition widgetIds (s : App) : list string := id <$> currentWidgets s.

(** The pending calls the debounced fetch made. *)
Definition interactionFetches (s : App) : list Pending :=
  filter (fun p => origin p = Interaction) (inflight (runtime s)).

(** The fetch-related part of the state is the same in [s] and [s']. *)
Definition same_fetch_state (s s' : App) : Prop :=
  isLoadingWidgets (stores s') = isLoadingWidgets (stores s) /\
  widgets (stores s') = widgets (stores s) /\
  heap (runtime s') = heap (runtime s) /\
  inflight (runtime s') = inflight (runtime s).

(** Loading flag and pending calls go together: the flag is set exactly
    while one call is pending. *)
Definition loading_tracks_inflight (s : App) : Prop :=
  (isLoadingWidgets (stores s) = true /\ length (inflight (runtime s)) = 1%nat) \/
  (isLoadingWidgets (stores s) = false /\ inflight (runtime s) = []).

(** The [count] each caller passes to [fetchAllWidgets]. *)
Definition batch_size (o : Origin) : nat :=
  match o with
  | InitialLoad => 5
  | FetchMore => 3
  | Interaction => 1
  end.

Definition counts_by_origin (s : App) : Prop :=
  forall p, p ∈ inflight (runtime s) -> count p = batch_size (origin p).

(** The store holds an allocated array. *)
Definition store_allocated (s : App) : Prop :=
  (widgets (stores s) < length (heap (runtime s)))%nat.

Definition app_invariant (s : App) : Prop :=
  loading_tracks_inflight s /\ counts_by_origin s /\ store_allocated s.

Section ApplicationProperties.

Variable toString36 : Q -> string.

(** The settled batches bring no id collision that the code does not
    handle: the ids of an initial-load batch are pairwise distinct, and so
    are those of a fetch-more batch, none of which is in the store already.
    Nothing is asked of the batches of the debounced fetch. *)
Definition collision_free (s : App) (ev : Event) : Prop :=
  match ev with
  | Settle k now rnd =>
      match settlement toString36 s k now rnd with
      | Some (p, Resolved ws) =>
          match origin p with
          | InitialLoad => NoDup (id <$> ws)
          | FetchMore => NoDup (id <$> ws) /\ forall w, w ∈ ws -> id w ∉ widgetIds s
          | Interaction => True
          end
      | _ => True
      end
  | _ => True
  end.

End ApplicationProperties.

(** ** More of InfiniteCanvas.svelte: leaving the page *)

(** The clean-up function [onMount] returns: the tracked debounce timeout
    is cancelled (listeners and subscriptions carry no state here). *)
Definition unmount (s : App) : App :=
  if truthy (debounceTimer (canvas s))
  then clearTimeout (default 0%nat (debounceTimer (canvas s))) s
  else s.

(** ** More properties of the running application *)

(** The component variable [debounceTimer] tracks the pending timeouts:
    none is pending, or the only pending one is the handle it holds. *)
Definition timers_tracked (s : App) : Prop :=
  nextTimeout (runtime s) <> 0%nat /\
  (timeouts (runtime s) = [] \/
   exists h, h <> 0%nat /\ timeouts (runtime s) = [h] /\ debounceTimer (canvas s) = Some h).

(** Events of the pointer, the wheel and the window. *)
Definition is_interaction (ev : Event) : bool :=
  match ev with
  | MouseDown _ _ _ | MouseMove _ _ | MouseUp | Wheel _ _ _ _ _ | Resize _ _ => true
  | _ => false
  end.

Definition is_settle (ev : Event) : bool :=
  match ev with
  | Settle _ _ _ => true
  | _ => false
  end.

(** The pointer visits the given positions in turn. *)
Definition drag (path : list (Q * Q)) (s : App) : App :=
  fold_left (fun st p => handleMouseMove (fst p) (snd p) st) path s.

(** The handler of a pointer, wheel or window event; other events are
    not for the canvas. *)
Definition handleEvent (ev : Event) (s : App) : App :=
  match ev with
  | MouseDown button clientX clientY => handleMouseDown button clientX clientY s
  | MouseMove clientX clientY => handleMouseMove clientX clientY s
  | MouseUp => handleMouseUp s
  | Wheel clientX clientY deltaY rectLeft rectTop =>
      handleWheel clientX clientY deltaY rectLeft rectTop s
  | Resize clientWidth clientHeight => handleResize clientWidth clientHeight s
  | _ => s
  end.

(** A burst of events handled in turn, with no timeout firing and no
    promise settling in between. *)
Definition burst (evs : list Event) (s : App) : App :=
  fold_left (fun st ev => handleEvent ev st) evs s.

(** The zoom stays within its bounds. *)
Definition zoom_in_range (s : App) : Prop :=
  0.1 <= zoom (canvasTransform (stores s)) /\ zoom (canvasTransform (stores s)) <= 10.

(** The error probability is a probability. *)
Definition probability_in_range (s : App) : Prop :=
  0 <= errorProbability (stores s) /\ errorProbability (stores s) <= 1.

(** While a call is pending the error slot is empty. *)
Definition no_error_while_loading (s : App) : Prop :=
  isLoadingWidgets (stores s) = true -> apiError (stores s) = None.

(** Until the initial load settles the store holds the empty array. *)
Definition empty_until_loaded (s : App) : Prop :=
  forall p, p ∈ inflight (runtime s) -> origin p = InitialLoad -> currentWidgets s = [].

(** ** More on MockApiService.ts: the widgets of a batch *)

(** What every widget of a resolved batch carries whatever the rounding:
    an id of at most 13 characters, a content from the fixed list and a title
    from the fixed list with the number of the widget in the batch. *)
Definition batch_widget (count : nat) (w : WidgetData) : Prop :=
  (String.length (id w) <= 13)%nat /\
  content w ∈ MOCK_WIDGET_CONTENTS /\
  exists t k, t ∈ MOCK_WIDGET_TITLES /\ (1 <= k <= count)%nat /\
              title w = t +:+ " #" +:+ pretty k.

(** What every widget of a spawned batch looks like in exact arithmetic,
    its position included. *)
Definition spawned_widget (count : nat) (cx cy z : Q) (w : WidgetData) : Prop :=
  (cx - 300 / z <= x w /\ x w < cx + 300 / z) /\
  (cy - 300 / z <= y w /\ y w < cy + 300 / z) /\
  (String.length (id w) <= 13)%nat /\
  content w ∈ MOCK_WIDGET_CONTENTS /\
  exists t k, t ∈ MOCK_WIDGET_TITLES /\ (1 <= k <= count)%nat /\
              title w = t +:+ " #" +:+ pretty k.

(** ** src/lib/tracing.ts: web vitals *)

Module Tracing.

(** A [Metric] of the web-vitals library, as far as the callback reads it. *)
Record Metric := mkMetric {
  name : string;
  value : Q;
  rating : string;
  id : string
}.

Record Attributes := mkAttributes {
  metric_source : string;
  metric_rating : string;
  metric_id : string
}.

(** The instruments of the meter: what each histogram has recorded, the
    variable behind the observable gauge, and the names [console.warn]
    reported as unhandled. *)
Record Instruments := mkInstruments {
  lcpMetric : list (Q * Attributes);
  fidMetric : list (Q * Attributes);
  ttfbMetric : list (Q * Attributes);
  fcpMetric : list (Q * Attributes);
  latestClsValue : Q;
  unhandled : list string
}.

Definition registered : Instruments :=
  {| lcpMetric := []; fidMetric := []; ttfbMetric := []; fcpMetric := [];
     latestClsValue := 0; unhandled := [] |}.

Definition recordWebVitalsMetric (metric : Metric) (st : Instruments) : Instruments :=
  let attributes :=
    {| metric_source := "web-vitals-library";
       metric_rating := rating metric;
       metric_id := id metric |} in
  if String.eqb (name metric) "LCP" then
    mkInstruments (lcpMetric st ++ [(value metric, attributes)]) (fidMetric st)
      (ttfbMetric st) (fcpMetric st) (latestClsValue st) (unhandled st)
  else if String.eqb (name metric) "CLS" then
    mkInstruments (lcpMetric st) (fidMetric st)
      (ttfbMetric st) (fcpMetric st) (value metric) (unhandled st)
  else if String.eqb (name metric) "TTFB" then
    mkInstruments (lcpMetric st) (fidMetric st)
      (ttfbMetric st ++ [(value metric, attributes)]) (fcpMetric st)
      (latestClsValue st) (unhandled st)
  else if String.eqb (name metric) "FCP" then
    mkInstruments (lcpMetric st) (fidMetric st)
      (ttfbMetric st) (fcpMetric st ++ [(value metric, attributes)])
      (latestClsValue st) (unhandled st)
  else
    mkInstruments (lcpMetric st) (fidMetric st)
      (ttfbMetric st) (fcpMetric st) (latestClsValue st)
      (unhandled st ++ [name metric]).

(** The callback of the observable gauge: [result.observe(latestClsValue)]. *)
Definition observeCls (st : Instruments) : Q := latestClsValue st.

(** The library reports the metrics in turn. *)
Definition report (metrics : list Metric) (st : Instruments) : Instruments :=
  fold_left (fun acc m => recordWebVitalsMetric m acc) metrics st.

(** The values of the metrics called [n], in the order reported. *)
Definition valuesNamed (n : string) (metrics : list Metric) : list Q :=
  value <$> filter (fun m => name m = n) metrics.

End Tracing.

(** ** Sample inputs for concrete runs *)

(** A stand-in for [toString(36)] that tells the samples of
    [distinct_samples] apart. *)
Definition numerator36 (q : Q) : string := "0." +:+ pretty (Qnum q).

(** Samples 0.15, 0.16, 0.17, ... *)
Definition distinct_samples (i : nat) : Q := Z.of_nat (15 + i) # 100.

(** * Theorems *)

(** ** Numbers *)

Lemma Qlt_bool_iff (a b : Q) : Qlt_bool a b = true <-> a < b.
Proof.
  unfold Qlt_bool. rewrite negb_true_iff.
  destruct (Qle_bool b a) eqn:E.
  - apply Qle_bool_iff in E. split; [discriminate | intros H; lra].
  - split; [intros _ | reflexivity].
    apply Qnot_le_lt. intros H. apply Qle_bool_iff in H. congruence.
Qed.

Lemma Qlt_bool_false (a b : Q) : Qlt_bool a b = false <-> b <= a.
Proof.
  rewrite <- not_true_iff_false, Qlt_bool_iff. split; intros H; lra.
Qed.

Lemma Math_min_cases (a b : Q) :
  (a <= b /\ Math_min a b = a) \/ (b < a /\ Math_min a b = b).
Proof.
  unfold Math_min. destruct (Qle_bool a b) eqn:E.
  - left. split; [now apply Qle_bool_iff | reflexivity].
  - right. split; [| reflexivity].
    apply Qnot_le_lt. intros H. apply Qle_bool_iff in H. congruence.
Qed.

Lemma Math_max_cases (a b : Q) :
  (a <= b /\ Math_max a b = b) \/ (b < a /\ Math_max a b = a).
Proof.
  unfold Math_max. destruct (Qle_bool a b) eqn:E.
  - left. split; [now apply Qle_bool_iff | reflexivity].
  - right. split; [| reflexivity].
    apply Qnot_le_lt. intros H. apply Qle_bool_iff in H. congruence.
Qed.

Lemma Qdiv_spos (a b : Q) : 0 < a -> 0 < b -> 0 < a / b.
Proof.
  intros Ha Hb. unfold Qdiv. apply Qmult_lt_0_compat; [assumption |].
  apply Qinv_lt_0_compat, Hb.
Qed.

(** ** Zoom *)

Lemma wheelZoom_cases (oldZoom deltaY : Q) :
  let n := requestedZoom oldZoom deltaY in
  (n < 0.1 /\ wheelZoom oldZoom deltaY = 0.1) \/
  (10 < n /\ wheelZoom oldZoom deltaY = 10) \/
  (0.1 <= n /\ n <= 10 /\ wheelZoom oldZoom deltaY = n).
Proof.
  unfold wheelZoom. cbn zeta.
  set (n := requestedZoom oldZoom deltaY).
  destruct (Math_min_cases n 10) as [[H1 ->] | [H1 ->]].
  - destruct (Math_max_cases 0.1 n) as [[H2 ->] | [H2 ->]].
    + right. right. auto.
    + left. auto.
  - destruct (Math_max_cases 0.1 10) as [[H2 ->] | [H2 ->]].
    + right. left. auto.
    + lra.
Qed.

Lemma wheelZoom_range (oldZoom deltaY : Q) :
  0.1 <= wheelZoom oldZoom deltaY /\ wheelZoom oldZoom deltaY <= 10.
Proof.
  destruct (wheelZoom_cases oldZoom deltaY) as [[_ ->] | [[_ ->] | (H1 & H2 & ->)]]; lra.
Qed.

Lemma handleWheel_unchanged cx cy dY rl rt (s : App) :
  wheelZoom (zoom (canvasTransform (stores s))) dY == zoom (canvasTransform (stores s)) ->
  handleWheel cx cy dY rl rt s = s.
Proof.
  intros H. unfold handleWheel. apply Qeq_bool_iff in H. now rewrite H.
Qed.

Lemma handleWheel_changed cx cy dY rl rt (s : App) :
  ~ wheelZoom (zoom (canvasTransform (stores s))) dY == zoom (canvasTransform (stores s)) ->
  let t := canvasTransform (stores s) in
  let cz := wheelZoom (zoom t) dY in
  let px := cx - rl in
  let py := cy - rt in
  handleWheel cx cy dY rl rt s =
  triggerDebouncedFetch
    (with_stores (set_canvasTransform
       {| panX := px / cz - fst (screenToWorld t px py);
          panY := py / cz - snd (screenToWorld t px py);
          zoom := cz |}) s).
Proof.
  intros H. cbn zeta. unfold handleWheel.
  destruct (Qeq_bool _ _) eqn:E; [apply Qeq_bool_iff in E; contradiction |].
  reflexivity.
Qed.

Lemma triggerDebouncedFetch_stores (s : App) : stores (triggerDebouncedFetch s) = stores s.
Proof. unfold triggerDebouncedFetch. destruct (truthy _); reflexivity. Qed.

(** C3: the wheel handler asks for [oldZoom * 1.15] (wheel up, negative
    [deltaY]) or [oldZoom / 1.15] (wheel down) and clamps it to [0.1, 10]: a
    request below 0.1 gives exactly 0.1, one above 10 gives exactly 10, one in
    between is kept.  When the clamped zoom equals the old zoom, as it does at
    a bound when pushing further out of range, the handler returns the state
    it was given: zoom and pan are untouched and no timeout is scheduled.
    Otherwise the store takes the clamped zoom and a debounced fetch is
    scheduled. *)
Theorem C3_wheel_zoom_clamped cx cy dY rl rt (s : App) :
  let oldZoom := zoom (canvasTransform (stores s)) in
  let n := requestedZoom oldZoom dY in
  let cz := wheelZoom oldZoom dY in
  (dY < 0 -> n = oldZoom * 1.15) /\
  (0 <= dY -> n = oldZoom / 1.15) /\
  (0.1 <= cz /\ cz <= 10) /\
  (n < 0.1 -> cz = 0.1) /\
  (10 < n -> cz = 10) /\
  (0.1 <= n -> n <= 10 -> cz = n) /\
  (cz == oldZoom -> handleWheel cx cy dY rl rt s = s) /\
  (oldZoom == 10 -> dY < 0 -> handleWheel cx cy dY rl rt s = s) /\
  (oldZoom == 0.1 -> 0 <= dY -> handleWheel cx cy dY rl rt s = s) /\
  (~ cz == oldZoom ->
     zoom (canvasTransform (stores (handleWheel cx cy dY rl rt s))) = cz /\
     debounceTimer (canvas (handleWheel cx cy dY rl rt s))
       = Some (nextTimeout (runtime s)) /\
     nextTimeout (runtime s) ∈ timeouts (runtime (handleWheel cx cy dY rl rt s))).
Proof.
  cbn zeta.
  set (oldZoom := zoom (canvasTransform (stores s))).
  pose proof (wheelZoom_cases oldZoom dY) as Hc. cbn zeta in Hc.
  assert (Hup : dY < 0 -> requestedZoom oldZoom dY = oldZoom * 1.15).
  { intros H. unfold requestedZoom. apply Qlt_bool_iff in H. now rewrite H. }
  assert (Hdown : 0 <= dY -> requestedZoom oldZoom dY = oldZoom / 1.15).
  { intros H. unfold requestedZoom. apply Qlt_bool_false in H. now rewrite H. }
  repeat split.
  - exact Hup.
  - exact Hdown.
  - apply wheelZoom_range.
  - apply wheelZoom_range.
  - intros H. destruct Hc as [[_ E] | [[H' _] | (H' & _ & _)]]; [exact E | lra | lra].
  - intros H. destruct Hc as [[H' _] | [[_ E] | (_ & H' & _)]]; [lra | exact E | lra].
  - intros H1 H2. destruct Hc as [[H' _] | [[H' _] | (_ & _ & E)]]; [lra | lra | exact E].
  - apply handleWheel_unchanged.
  - intros Hz Hd. apply handleWheel_unchanged. fold oldZoom.
    specialize (Hup Hd).
    destruct Hc as [[H' _] | [[_ E] | (_ & H' & _)]].
    + rewrite Hup in H'. lra.
    + rewrite E. lra.
    + rewrite Hup in H'. lra.
  - intros Hz Hd. apply handleWheel_unchanged. fold oldZoom.
    specialize (Hdown Hd).
    assert (Hn : requestedZoom oldZoom dY < 0.1).
    { rewrite Hdown. unfold Qdiv. rewrite Hz. reflexivity. }
    destruct Hc as [[_ E] | [[H' _] | (H' & _ & _)]].
    + rewrite E. lra.
    + lra.
    + lra.
  - rewrite handleWheel_changed by assumption. cbn zeta.
    now rewrite triggerDebouncedFetch_stores.
  - rewrite handleWheel_changed by assumption. cbn zeta.
    unfold triggerDebouncedFetch. destruct (truthy _); reflexivity.
  - rewrite handleWheel_changed by assumption. cbn zeta.
    unfold triggerDebouncedFetch.
    destruct (truthy _); cbn; apply elem_of_app; right; constructor.
Qed.

(** C2 (the code at the failing input): the wheel handler does not keep
    the point under the cursor in place.  From the transform the application
    starts with (pan 0, zoom 1), where the cursor's world point is the cursor
    position itself and is drawn at the cursor, a wheel-up stores a transform
    under which that world point is drawn at 469/460 of the cursor position,
    so away from the cursor unless the cursor is at the viewport origin: the
    handler solves for the pan with [world = screen / zoom - pan], the markup
    draws with [screen = world * zoom + pan]. *)
Theorem C2_wheel_moves_the_point_under_the_cursor cx cy dY rl rt (s : App) :
  canvasTransform (stores s) = mkTransform 0 0 1 ->
  dY < 0 ->
  let t := canvasTransform (stores s) in
  let t' := canvasTransform (stores (handleWheel cx cy dY rl rt s)) in
  let px := cx - rl in
  let py := cy - rt in
  (fst (screenToWorld t px py) == px /\ snd (screenToWorld t px py) == py) /\
  (fst (renderedAt t px py) == px /\ snd (renderedAt t px py) == py) /\
  zoom t' == 1.15 /\
  fst (renderedAt t' px py) == px * (469 # 460) /\
  snd (renderedAt t' px py) == py * (469 # 460) /\
  (fst (renderedAt t' px py) == px -> px == 0) /\
  (snd (renderedAt t' px py) == py -> py == 0).
Proof.
  intros Ht Hd. cbn zeta.
  assert (Ez : wheelZoom 1 dY = 1 * 1.15).
  { unfold wheelZoom, requestedZoom. apply Qlt_bool_iff in Hd. now rewrite Hd. }
  assert (Hne : ~ wheelZoom (zoom (canvasTransform (stores s))) dY
                  == zoom (canvasTransform (stores s))).
  { rewrite Ht. cbn [zoom]. rewrite Ez. discriminate. }
  rewrite (handleWheel_changed cx cy dY rl rt s Hne). cbn zeta.
  rewrite triggerDebouncedFetch_stores, Ht.
  cbn [with_stores stores set_canvasTransform canvasTransform screenToWorld renderedAt
       fst snd panX panY zoom].
  rewrite Ez.
  assert (Ex : (cx - rl) * (1 * 1.15) + ((cx - rl) / (1 * 1.15) - ((cx - rl) / 1 - 0))
               == (cx - rl) * (469 # 460)) by (field; discriminate).
  assert (Ey : (cy - rt) * (1 * 1.15) + ((cy - rt) / (1 * 1.15) - ((cy - rt) / 1 - 0))
               == (cy - rt) * (469 # 460)) by (field; discriminate).
  repeat apply conj.
  - field.
  - field.
  - ring.
  - ring.
  - reflexivity.
  - exact Ex.
  - exact Ey.
  - rewrite Ex. intros H. lra.
  - rewrite Ey. intros H. lra.
Qed.

Lemma C2_wheel_moves_the_point_under_the_cursor_witness :
  let t' := canvasTransform (stores (handleWheel 100 50 (-1) 0 0 (mounted 800 600 800 600))) in
  fst (renderedAt t' (100 - 0) (50 - 0)) == (100 - 0) * (469 # 460) /\
  ~ fst (renderedAt t' (100 - 0) (50 - 0)) == 100 - 0.
Proof.
  cbn zeta.
  destruct (C2_wheel_moves_the_point_under_the_cursor 100 50 (-1) 0 0
              (mounted 800 600 800 600) eq_refl eq_refl)
    as (_ & _ & _ & Hx & _ & Hfix & _).
  split; [exact Hx |].
  intros H. apply Hfix in H. discriminate H.
Defined.

(** The same wheel event on binary64 numbers: the point that was under the
    cursor at (100, 50) is drawn near (101.96, 50.98) afterwards, far beyond
    rounding error. *)
Lemma wheel_moves_the_point_in_binary64 :
  let t' := F64.wheelTransform 100 50 (-1) (F64.mkTransform 0 0 1) in
  PrimFloat.ltb 101.5 (fst (F64.renderedAt t' 100 50)) = true /\
  PrimFloat.ltb 50.5 (snd (F64.renderedAt t' 100 50)) = true.
Proof. vm_compute. split; reflexivity. Qed.

(** ** Culling *)

Lemma isWidgetInView_true vw vh (w : WidgetData) (t : CanvasTransform) :
  isWidgetInView vw vh w t = true <->
  x w < - panX t + vw / zoom t + 100 / zoom t /\
  - panX t - 100 / zoom t < x w + 220 /\
  y w < - panY t + vh / zoom t + 100 / zoom t /\
  - panY t - 100 / zoom t < y w + 150.
Proof.
  unfold isWidgetInView. cbn zeta.
  rewrite !andb_true_iff, !Qlt_bool_iff. tauto.
Qed.

(** C8 (the code at the failing input): the culling test does not
    follow what is drawn.  At pan (-1000, 0) and zoom 2 in an 800 by 600
    viewport, the widget at (600, 100) has points drawn inside the viewport
    and the test returns false for it, while the widget at (1200, 100) is
    drawn more than 100 pixels to the right of the viewport and the test
    returns true for it; binary64 arithmetic gives the same two answers.  The
    test takes the viewport to show the world from [- pan] to
    [- pan + size / zoom], the markup draws world point [w] at
    [w * zoom + pan]. *)
Theorem C8_culling_disagrees_with_what_is_drawn :
  let t := mkTransform (-1000) 0 2 in
  let u := mkWidget "u" "Alpha Widget #1" "text" 600 100 in
  let v := mkWidget "v" "Bravo Item #1" "text" 1200 100 in
  (isWidgetInView 800 600 u t = false /\ on_screen 800 600 t u) /\
  (isWidgetInView 800 600 v t = true /\ right_of_viewport 800 100 t v) /\
  F64.isWidgetInView 800 600 600 100 (F64.mkTransform (-1000) 0 2) = false /\
  F64.isWidgetInView 800 600 1200 100 (F64.mkTransform (-1000) 0 2) = true.
Proof.
  cbn zeta. repeat apply conj.
  - reflexivity.
  - exists 610, 110. vm_compute. repeat split.
  - reflexivity.
  - intros wx wy (H1 & _). unfold renderedAt. cbn in *. lra.
  - vm_compute. reflexivity.
  - vm_compute. reflexivity.
Qed.


(** C9, as stated, fails on binary64 numbers: from pan 0 at zoom 10, panning
    by 1 pixel and then by 2 pixels ends at 0.30000000000000004, panning
    once by 3 pixels ends at 0.3. *)
Lemma C9_pan_not_linear_in_binary64 :
  let t := F64.mkTransform 0 0 10 in
  PrimFloat.eqb (F64.panX (F64.panBy 2 0 (F64.panBy 1 0 t)))
                (F64.panX (F64.panBy (PrimFloat.add 1 2) 0 t)) = false /\
  F64.zoom (F64.panBy 1 0 t) = F64.zoom t.
Proof. vm_compute. split; reflexivity. Qed.

Lemma triggerDebouncedFetch_canvas (s : App) :
  canvas (triggerDebouncedFetch s)
  = set_debounceTimer (Some (nextTimeout (runtime s))) (canvas s).
Proof. unfold triggerDebouncedFetch. destruct (truthy _); reflexivity. Qed.

Lemma handleMouseMove_panning cx cy (s : App) :
  isPanning (canvas s) = true ->
  stores (handleMouseMove cx cy s)
  = set_canvasTransform
      (panBy (cx - lastPanX (canvas s)) (cy - lastPanY (canvas s)) (canvasTransform (stores s)))
      (stores s) /\
  isPanning (canvas (handleMouseMove cx cy s)) = true /\
  lastPanX (canvas (handleMouseMove cx cy s)) = cx /\
  lastPanY (canvas (handleMouseMove cx cy s)) = cy.
Proof.
  intros H. unfold handleMouseMove. rewrite H. cbn [negb].
  rewrite triggerDebouncedFetch_stores, triggerDebouncedFetch_canvas. cbn.
  auto.
Qed.

(** C9 (amended): in exact arithmetic, while panning at a constant zoom,
    the pan handler adds [delta / zoom] to the pan without clamping, and
    moving the pointer by [d1] and then by [d2] leaves the same pan as moving
    it once by [d1 + d2]; the zoom is never touched. *)
Theorem C9_pan_linear_exact (s : App) (d1x d1y d2x d2y : Q) :
  isPanning (canvas s) = true ->
  let t := canvasTransform (stores s) in
  let lx := lastPanX (canvas s) in
  let ly := lastPanY (canvas s) in
  let two := canvasTransform (stores
               (handleMouseMove (lx + d1x + d2x) (ly + d1y + d2y)
                  (handleMouseMove (lx + d1x) (ly + d1y) s))) in
  let one := canvasTransform (stores
               (handleMouseMove (lx + (d1x + d2x)) (ly + (d1y + d2y)) s)) in
  panX two == panX one /\ panY two == panY one /\
  panX two == panX t + d1x / zoom t + d2x / zoom t /\
  panY two == panY t + d1y / zoom t + d2y / zoom t /\
  zoom two = zoom t /\ zoom one = zoom t.
Proof.
  intros Hp. cbn zeta.
  destruct (handleMouseMove_panning (lastPanX (canvas s) + d1x) (lastPanY (canvas s) + d1y) s Hp)
    as (E1 & Hp1 & Ex & Ey).
  destruct (handleMouseMove_panning (lastPanX (canvas s) + d1x + d2x)
              (lastPanY (canvas s) + d1y + d2y) _ Hp1) as (E2 & _).
  destruct (handleMouseMove_panning (lastPanX (canvas s) + (d1x + d2x))
              (lastPanY (canvas s) + (d1y + d2y)) s Hp) as (E3 & _).
  rewrite E2, E3, Ex, Ey, E1.
  cbn [set_canvasTransform canvasTransform panBy panX panY zoom]. unfold Qdiv.
  repeat apply conj; try reflexivity; ring.
Qed.

Lemma C9_pan_linear_exact_witness :
  let s := handleMouseDown 0 10 10 (mounted 800 600 800 600) in
  panX (canvasTransform (stores (handleMouseMove (10 + 1 + 2) (10 + 0 + 0)
                                   (handleMouseMove (10 + 1) (10 + 0) s))))
  == panX (canvasTransform (stores (handleMouseMove (10 + (1 + 2)) (10 + (0 + 0)) s))).
Proof.
  cbn zeta.
  refine (proj1 (C9_pan_linear_exact (handleMouseDown 0 10 10 (mounted 800 600 800 600))
                   1 0 2 0 _)).
  reflexivity.
Defined.


(** ** Widget store merge *)

Lemma deref_alloc (h : Heap) (v : list WidgetData) :
  deref (fst (alloc h v)) (snd (alloc h v)) = v.
Proof.
  unfold deref, alloc. cbn [fst snd].
  now rewrite lookup_app_r, Nat.sub_diag by lia.
Qed.

Lemma deref_alloc_old (h : Heap) (v : list WidgetData) (l : loc) :
  (l < length h)%nat -> deref (fst (alloc h v)) l = deref h l.
Proof.
  intros H. unfold deref, alloc. cbn [fst]. now rewrite lookup_app_l by exact H.
Qed.

Lemma survivors_filter (present incoming : list WidgetData) :
  filter (fun nw => id nw ∉ (list_to_set (id <$> present) : gset string)) incoming
  = spec_survivors present incoming.
Proof.
  unfold spec_survivors. apply list_filter_iff. intros w.
  now rewrite elem_of_list_to_set.
Qed.


Lemma mergeNewWidgets_cases (newWidgets : loc) (h : Heap) (current : loc) :
  let sv := spec_survivors (deref h current) (deref h newWidgets) in
  (sv = [] /\ mergeNewWidgets newWidgets h current = (h, current)) \/
  (sv <> [] /\ mergeNewWidgets newWidgets h current = alloc h (deref h current ++ sv)).
Proof.
  cbn zeta. unfold mergeNewWidgets. cbn zeta. rewrite survivors_filter.
  destruct (spec_survivors _ _) as [| w sv]; [left | right]; split;
    solve [reflexivity | discriminate].
Qed.


(** ** Mock network service *)

Section MockApiServiceFacts.

Variable toString36 : Q -> string.

Lemma fetchWidgetData_settle_rejected errorRate now widgetId rnd i :
  isRejected (fst (fetchWidgetData_settle errorRate now widgetId rnd i))
  = Qlt_bool (rnd i) errorRate.
Proof.
  unfold fetchWidgetData_settle, shouldSimulateError, simulateError, bind, Math_random, ret.
  destruct (Qlt_bool (rnd i) errorRate); reflexivity.
Qed.

Lemma fetchAllWidgets_settle_rejected errorRate now count cx cy z rnd i :
  isRejected (fst (fetchAllWidgets_settle toString36 errorRate now count cx cy z rnd i))
  = Qlt_bool (rnd i) errorRate.
Proof.
  unfold fetchAllWidgets_settle, shouldSimulateError, simulateError, bind, Math_random, ret.
  destruct (Qlt_bool (rnd i) errorRate); [reflexivity |].
  now destruct (spawnWidgets _ _ _ _ _ _ _ _).
Qed.

Lemma fetchWidgetData_rejected errorRate now widgetId rnd i :
  isRejected (snd (fst (fetchWidgetData errorRate now widgetId rnd i)))
  = Qlt_bool (rnd (S i)) errorRate.
Proof.
  rewrite <- fetchWidgetData_settle_rejected with (now := now) (widgetId := widgetId).
  unfold fetchWidgetData, bind, Math_random, ret.
  now destruct (fetchWidgetData_settle _ _ _ _ _).
Qed.

Lemma fetchAllWidgets_rejected errorRate now count cx cy z rnd i :
  isRejected (snd (fst (fetchAllWidgets toString36 errorRate now count cx cy z rnd i)))
  = Qlt_bool (rnd (S i)) errorRate.
Proof.
  rewrite <- fetchAllWidgets_settle_rejected
    with (now := now) (count := count) (cx := cx) (cy := cy) (z := z).
  unfold fetchAllWidgets, bind, Math_random, ret.
  now destruct (fetchAllWidgets_settle _ _ _ _ _ _ _ _ _).
Qed.

(** C6: a call of [fetchWidgetData] or [fetchAllWidgets] rejects exactly
    when the sample drawn for the error decision (the one after the latency
    sample) is below the error probability; with samples in [0, 1), every
    call rejects at probability 1 and none does at probability 0. *)
Theorem C6_rejects_iff_sample_below_rate (errorRate : Q) (now : string)
    (rnd : nat -> Q) (i : nat) :
  (forall widgetId,
     isRejected (snd (fst (fetchWidgetData errorRate now widgetId rnd i))) = true
     <-> rnd (S i) < errorRate) /\
  (forall count cx cy z,
     isRejected (snd (fst (fetchAllWidgets toString36 errorRate now count cx cy z rnd i))) = true
     <-> rnd (S i) < errorRate) /\
  (unit_samples rnd -> errorRate == 1 ->
     (forall widgetId,
        isRejected (snd (fst (fetchWidgetData errorRate now widgetId rnd i))) = true) /\
     (forall count cx cy z,
        isRejected (snd (fst (fetchAllWidgets toString36 errorRate now count cx cy z rnd i)))
        = true)) /\
  (unit_samples rnd -> errorRate == 0 ->
     (forall widgetId,
        isRejected (snd (fst (fetchWidgetData errorRate now widgetId rnd i))) = false) /\
     (forall count cx cy z,
        isRejected (snd (fst (fetchAllWidgets toString36 errorRate now count cx cy z rnd i)))
        = false)).
Proof.
  repeat apply conj.
  - intros. rewrite fetchWidgetData_rejected. apply Qlt_bool_iff.
  - intros. rewrite fetchAllWidgets_rejected. apply Qlt_bool_iff.
  - intros Hu Hr. destruct (Hu (S i)) as [_ H1]. split; intros.
    + rewrite fetchWidgetData_rejected. apply Qlt_bool_iff. lra.
    + rewrite fetchAllWidgets_rejected. apply Qlt_bool_iff. lra.
  - intros Hu Hr. destruct (Hu (S i)) as [H0 _]. split; intros.
    + rewrite fetchWidgetData_rejected. apply Qlt_bool_false. lra.
    + rewrite fetchAllWidgets_rejected. apply Qlt_bool_false. lra.
Qed.

Lemma spawnWidgets_length todo i cx cy z rnd j :
  length (fst (spawnWidgets toString36 todo i cx cy z rnd j)) = todo.
Proof.
  revert i j. induction todo as [| n IH]; intros i j; [reflexivity |].
  cbn [spawnWidgets]. unfold bind at 1 2 3 4 5 6.
  unfold generateRandomId, bind, Math_random, ret. cbn.
  specialize (IH (S i) (S (S (S (S (S j)))))).
  destruct (spawnWidgets _ _ _ _ _ _ _ _). cbn in *. now rewrite IH.
Qed.

Lemma fetchAllWidgets_settle_resolved errorRate now count cx cy z rnd i ws :
  fst (fetchAllWidgets_settle toString36 errorRate now count cx cy z rnd i) = Resolved ws ->
  length ws = count.
Proof.
  unfold fetchAllWidgets_settle, shouldSimulateError, simulateError, bind, Math_random, ret.
  destruct (Qlt_bool (rnd i) errorRate); [discriminate |].
  pose proof (spawnWidgets_length count 0 cx cy z rnd (S i)) as H.
  destruct (spawnWidgets _ _ _ _ _ _ _ _) as [l j]. cbn [fst] in *.
  intros E. injection E as <-. exact H.
Qed.

(** An error built by [simulateError] carries one of the four messages. *)
Lemma simulateError_message now params rnd i :
  message (fst (simulateError now params rnd i)) <> "".
Proof.
  unfold simulateError, bind, Math_random, ret. cbn [fst message].
  destruct (floorIndex (rnd i) (length errorTypes)) as [| [| [| [| n]]]];
    unfold errorTypes; cbn; try destruct n; cbn; intros H; discriminate H.
Qed.

Lemma fetchAllWidgets_settle_error errorRate now count cx cy z rnd i e :
  fst (fetchAllWidgets_settle toString36 errorRate now count cx cy z rnd i) = Rejected e ->
  message e <> "".
Proof.
  unfold fetchAllWidgets_settle, shouldSimulateError, bind at 1 2, Math_random, ret.
  destruct (Qlt_bool (rnd i) errorRate).
  - pose proof (simulateError_message now (BatchParams count cx cy z) rnd (S i)) as H.
    unfold bind at 1. destruct (simulateError _ _ _ _) as [e' j]. cbn [fst] in *.
    intros E. injection E as <-. exact H.
  - unfold bind. destruct (spawnWidgets _ _ _ _ _ _ _ _). discriminate.
Qed.

End MockApiServiceFacts.

Lemma C6_rejects_iff_sample_below_rate_witness :
  (forall count cx cy z,
     isRejected (snd (fst (fetchAllWidgets (fun _ => "0.i") 1 "now" count cx cy z
                             (fun _ => 1 # 2) 0%nat))) = true) /\
  (forall count cx cy z,
     isRejected (snd (fst (fetchAllWidgets (fun _ => "0.i") 0 "now" count cx cy z
                             (fun _ => 1 # 2) 0%nat))) = false).
Proof.
  split.
  - refine (proj2 (proj1 (proj2 (proj2
      (C6_rejects_iff_sample_below_rate (fun _ => "0.i") 1 "now" (fun _ => 1 # 2) 0%nat))) _ _)).
    + intros k. split; [discriminate | reflexivity].
    + reflexivity.
  - refine (proj2 (proj2 (proj2 (proj2
      (C6_rejects_iff_sample_below_rate (fun _ => "0.i") 0 "now" (fun _ => 1 # 2) 0%nat))) _ _)).
    + intros k. split; [discriminate | reflexivity].
    + reflexivity.
Defined.

(** ** The event loop: what each handler leaves alone *)

Lemma same_fetch_state_refl (s : App) : same_fetch_state s s.
Proof. repeat split. Qed.

Lemma same_fetch_state_trans (s1 s2 s3 : App) :
  same_fetch_state s1 s2 -> same_fetch_state s2 s3 -> same_fetch_state s1 s3.
Proof.
  intros (A1 & A2 & A3 & A4) (B1 & B2 & B3 & B4).
  repeat split; congruence.
Qed.

Lemma dropTimeout_same handle (s : App) : same_fetch_state s (dropTimeout handle s).
Proof. repeat split. Qed.

Lemma triggerDebouncedFetch_same (s : App) : same_fetch_state s (triggerDebouncedFetch s).
Proof. unfold triggerDebouncedFetch. destruct (truthy _); repeat split. Qed.

Lemma handleMouseDown_same button cx cy (s : App) :
  same_fetch_state s (handleMouseDown button cx cy s).
Proof. unfold handleMouseDown. destruct (negb _); repeat split. Qed.

Lemma handleMouseMove_same cx cy (s : App) : same_fetch_state s (handleMouseMove cx cy s).
Proof.
  unfold handleMouseMove. destruct (negb _); [apply same_fetch_state_refl |].
  eapply same_fetch_state_trans; [| apply triggerDebouncedFetch_same]. repeat split.
Qed.

Lemma handleMouseUp_same (s : App) : same_fetch_state s (handleMouseUp s).
Proof. unfold handleMouseUp. destruct (isPanning _); repeat split. Qed.

Lemma handleWheel_same cx cy dY rl rt (s : App) :
  same_fetch_state s (handleWheel cx cy dY rl rt s).
Proof.
  unfold handleWheel. destruct (Qeq_bool _ _); [apply same_fetch_state_refl |].
  cbv beta iota zeta delta [screenToWorld]. eapply same_fetch_state_trans; [| apply triggerDebouncedFetch_same]. repeat split.
Qed.

Lemma handleResize_same w h (s : App) : same_fetch_state s (handleResize w h s).
Proof.
  unfold handleResize.
  eapply same_fetch_state_trans; [| apply triggerDebouncedFetch_same]. repeat split.
Qed.

Lemma handleProbabilityChange_same newProb (s : App) :
  same_fetch_state s (handleProbabilityChange newProb s).
Proof. unfold handleProbabilityChange. destruct (_ && _); repeat split. Qed.

(** ** The debounced fetch *)

Lemma fetchWidgetsForCurrentView_loading (s : App) :
  isLoadingWidgets (stores s) = true -> fetchWidgetsForCurrentView s = s.
Proof. intros H. unfold fetchWidgetsForCurrentView. now rewrite H. Qed.

Lemma fetchWidgetsForCurrentView_idle (s : App) :
  isLoadingWidgets (stores s) = false ->
  let t := canvasTransform (stores s) in
  fetchWidgetsForCurrentView s =
  with_runtime (fun r =>
    set_inflight (inflight r ++
      [mkPending Interaction 1
         (viewportWidth (canvas s) / 2 / zoom t - panX t)
         (viewportHeight (canvas s) / 2 / zoom t - panY t) (zoom t)]) r)
    (with_stores (fun st => set_apiError None (set_isLoadingWidgets true st)) s).
Proof. intros H. unfold fetchWidgetsForCurrentView. now rewrite H. Qed.

(** ** Settling a pending call *)

Lemma resume_rejected (p : Pending) (e : SimulatedError) (s : App) :
  let s' := resume p (Rejected e) s in
  widgets (stores s') = widgets (stores s) /\
  canvasTransform (stores s') = canvasTransform (stores s) /\
  errorProbability (stores s') = errorProbability (stores s) /\
  isLoadingWidgets (stores s') = false /\
  runtime s' = runtime s /\
  apiError (stores s') =
    Some (match origin p with
          | Interaction => "Interaction fetch failed: " +:+ or_else (message e) "Unknown error"
          | _ => or_else (message e) "An unknown error occurred."
          end).
Proof. unfold resume. destruct (origin p); repeat split. Qed.

Lemma resume_resolved (p : Pending) (ws : list WidgetData) (s : App) :
  store_allocated s ->
  let s' := resume p (Resolved ws) s in
  isLoadingWidgets (stores s') = false /\
  inflight (runtime s') = inflight (runtime s) /\
  timeouts (runtime s') = timeouts (runtime s) /\
  store_allocated s' /\
  currentWidgets s' =
    match origin p with
    | InitialLoad => ws
    | FetchMore => currentWidgets s ++ ws
    | Interaction => currentWidgets s ++ spec_survivors (currentWidgets s) ws
    end.
Proof.
  intros Ha. unfold store_allocated in Ha. cbn zeta.
  unfold resume. cbn [alloc].
  set (h := heap (runtime s)) in *.
  set (s1 := with_runtime (set_heap (h ++ [ws])) s).
  assert (Hnew : deref (h ++ [ws]) (length h) = ws) by apply (deref_alloc h ws).
  assert (Hold : deref (h ++ [ws]) (widgets (stores s)) = deref h (widgets (stores s)))
    by apply (deref_alloc_old h ws _ Ha).
  destruct (origin p).
  - (* initial load: widgets.set(newWidgets) *)
    unfold onMount_resume, store_allocated, currentWidgets. cbn.
    fold h. rewrite Hnew, length_app. cbn. repeat split; lia.
  - (* fetch more: [...currentWidgets, ...newWidgets] *)
    unfold fetchMoreWidgets_resume, widgets_update, appendWidgets, store_allocated,
      currentWidgets. cbn. fold h.
    rewrite Hnew, Hold, !length_app. cbn.
    repeat split; [lia |].
    pose proof (deref_alloc (h ++ [ws]) (deref h (widgets (stores s)) ++ ws)) as E.
    cbn in E. rewrite length_app in E. exact E.
  - (* debounced fetch: merge *)
    unfold fetchWidgetsForCurrentView_resume, widgets_update, store_allocated, currentWidgets.
    cbn [s1 with_runtime runtime set_heap heap stores]. fold h.
    destruct (mergeNewWidgets_cases (length h) (h ++ [ws]) (widgets (stores s)))
      as [[E ->] | [E ->]]; cbn zeta in E; rewrite Hnew, Hold in E.
    + cbn. fold h. rewrite E, app_nil_r, Hold, length_app. cbn. repeat split; lia.
    + rewrite Hnew, Hold. cbn. rewrite !length_app. cbn.
      repeat split; [lia |].
      pose proof (deref_alloc (h ++ [ws])
        (deref h (widgets (stores s)) ++
         spec_survivors (deref h (widgets (stores s))) ws)) as E'.
      cbn in E'. rewrite length_app in E'. exact E'.
Qed.

(** ** Invariants of the event loop *)

Lemma app_invariant_same (s s' : App) :
  same_fetch_state s s' -> app_invariant s -> app_invariant s'.
Proof.
  intros (E1 & E2 & E3 & E4) (H1 & H2 & H3).
  unfold app_invariant, loading_tracks_inflight, counts_by_origin, store_allocated in *.
  rewrite E1, E2, E3, E4. auto.
Qed.

Lemma currentWidgets_same (s s' : App) :
  same_fetch_state s s' -> currentWidgets s' = currentWidgets s.
Proof. intros (_ & E2 & E3 & _). unfold currentWidgets. now rewrite E2, E3. Qed.

Lemma app_invariant_start (s : App) (p : Pending) :
  count p = batch_size (origin p) ->
  isLoadingWidgets (stores s) = false ->
  app_invariant s ->
  app_invariant
    (with_runtime (fun r => set_inflight (inflight r ++ [p]) r)
       (with_stores (fun st => set_apiError None (set_isLoadingWidgets true st)) s)).
Proof.
  intros Hc Hl ([[Hl' _] | [_ Hi]] & H2 & H3); [congruence |].
  unfold app_invariant, loading_tracks_inflight, counts_by_origin, store_allocated in *.
  cbn. rewrite Hi. cbn. repeat split; auto.
  intros q Hq. apply list_elem_of_singleton in Hq. now subst q.
Qed.

Lemma app_invariant_mounted cw ch iw ih : app_invariant (mounted cw ch iw ih).
Proof.
  unfold app_invariant, loading_tracks_inflight, counts_by_origin, store_allocated.
  cbn. repeat split; auto.
  intros q Hq. apply list_elem_of_singleton in Hq. now subst q.
Qed.

Section ApplicationFacts.

Variable toString36 : Q -> string.

Lemma settlement_pending (s : App) k now rnd p o :
  settlement toString36 s k now rnd = Some (p, o) ->
  inflight (runtime s) !! k = Some p /\
  o = fst (fetchAllWidgets_settle toString36 (errorProbability (stores s)) now
             (count p) (centerX p) (centerY p) (atZoom p) rnd 0%nat).
Proof.
  unfold settlement. destruct (inflight (runtime s) !! k) as [q |]; [| discriminate].
  intros E. injection E as <- <-. auto.
Qed.

Lemma settle_inv (s s' : App) k now rnd :
  settle toString36 k now rnd s = Some s' ->
  exists p o,
    settlement toString36 s k now rnd = Some (p, o) /\
    s' = resume p o (with_runtime (fun r => set_inflight (delete k (inflight r)) r) s).
Proof.
  unfold settle. destruct (settlement toString36 s k now rnd) as [[p o] |]; [| discriminate].
  intros E. injection E as <-. eauto.
Qed.

Lemma app_invariant_settle (s s' : App) k now rnd :
  app_invariant s -> settle toString36 k now rnd s = Some s' -> app_invariant s'.
Proof.
  intros (H1 & H2 & H3) Hs.
  destruct (settle_inv _ _ _ _ _ Hs) as (p & o & Hset & ->).
  destruct (settlement_pending _ _ _ _ _ _ Hset) as [Hk _].
  set (s0 := with_runtime (fun r => set_inflight (delete k (inflight r)) r) s).
  assert (Hnil : inflight (runtime s0) = []).
  { destruct H1 as [[_ Hlen] | [_ Hi]].
    - cbn. destruct (inflight (runtime s)) as [| q [| q' l]]; try discriminate.
      destruct k; [reflexivity | discriminate].
    - rewrite Hi in Hk. discriminate. }
  assert (Ha0 : store_allocated s0) by exact H3.
  unfold app_invariant, loading_tracks_inflight, counts_by_origin.
  destruct o as [ws | e].
  - destruct (resume_resolved p ws s0 Ha0) as (R1 & R2 & _ & R4 & _).
    rewrite R1, R2, Hnil. repeat split; auto.
    intros q Hq. inversion Hq.
  - destruct (resume_rejected p e s0) as (R1 & _ & _ & R4 & R5 & _).
    unfold store_allocated. rewrite R1, R4, R5, Hnil. repeat split; auto.
    intros q Hq. inversion Hq.
Qed.

Lemma app_invariant_step (s s' : App) (ev : Event) :
  app_invariant s -> step toString36 s ev = Some s' -> app_invariant s'.
Proof.
  intros Hinv Hstep. destruct ev; cbn [step] in Hstep.
  - injection Hstep as <-. eapply app_invariant_same; [apply handleMouseDown_same | exact Hinv].
  - injection Hstep as <-. eapply app_invariant_same; [apply handleMouseMove_same | exact Hinv].
  - injection Hstep as <-. eapply app_invariant_same; [apply handleMouseUp_same | exact Hinv].
  - injection Hstep as <-. eapply app_invariant_same; [apply handleWheel_same | exact Hinv].
  - injection Hstep as <-. eapply app_invariant_same; [apply handleResize_same | exact Hinv].
  - destruct (decide _); [| discriminate]. injection Hstep as <-.
    assert (Hc : app_invariant (dropTimeout handle s))
      by (eapply app_invariant_same; [apply dropTimeout_same | exact Hinv]).
    destruct (isLoadingWidgets (stores (dropTimeout handle s))) eqn:El.
    + now rewrite fetchWidgetsForCurrentView_loading.
    + rewrite fetchWidgetsForCurrentView_idle by exact El.
      now apply app_invariant_start.
  - destruct (isLoadingWidgets (stores s)) eqn:El; [discriminate |].
    injection Hstep as <-. unfold fetchMoreWidgets.
    now apply app_invariant_start.
  - injection Hstep as <-.
    eapply app_invariant_same; [apply handleProbabilityChange_same | exact Hinv].
  - destruct (apiError (stores s)) as [m |]; [| discriminate].
    destruct (decide _); [discriminate |]. injection Hstep as <-.
    eapply app_invariant_same; [| exact Hinv]. repeat split.
  - eapply app_invariant_settle; eassumption.
Qed.

Lemma reachable_by_invariant ok (s : App) :
  reachable_by toString36 ok s -> app_invariant s.
Proof.
  induction 1 as [cw ch iw ih | s ev s' _ IH _ Hstep].
  - apply app_invariant_mounted.
  - eapply app_invariant_step; eassumption.
Qed.

End ApplicationFacts.

(** ** Distinct ids *)

Lemma survivors_fresh (present incoming : list WidgetData) (w : WidgetData) :
  w ∈ spec_survivors present incoming -> w ∈ incoming /\ id w ∉ id <$> present.
Proof. unfold spec_survivors. rewrite list_elem_of_filter. tauto. Qed.

Lemma survivors_NoDup (present incoming : list WidgetData) :
  NoDup (id <$> incoming) -> NoDup (id <$> spec_survivors present incoming).
Proof.
  unfold spec_survivors. induction incoming as [| w ws IH]; intros Hnd.
  - constructor.
  - rewrite fmap_cons in Hnd. apply NoDup_cons in Hnd as [Hw Hws].
    rewrite filter_cons. destruct (decide _) as [Hfresh | _]; [| auto].
    rewrite fmap_cons. apply NoDup_cons. split; [| auto].
    intros Hin. apply Hw.
    apply list_elem_of_fmap in Hin as (w' & -> & Hw').
    apply list_elem_of_filter in Hw' as [_ Hw'].
    apply list_elem_of_fmap. eauto.
Qed.

Lemma NoDup_append_fresh (present incoming : list WidgetData) :
  NoDup (id <$> present) -> NoDup (id <$> incoming) ->
  (forall w, w ∈ incoming -> id w ∉ id <$> present) ->
  NoDup (id <$> (present ++ incoming)).
Proof.
  intros Hp Hi Hfresh. rewrite fmap_app. apply NoDup_app. repeat split; auto.
  intros i Hin Hin'.
  apply list_elem_of_fmap in Hin' as (w & -> & Hw). exact (Hfresh w Hw Hin).
Qed.

Lemma NoDup_merge (present incoming : list WidgetData) :
  NoDup (id <$> present) -> NoDup (id <$> incoming) ->
  NoDup (id <$> (present ++ spec_survivors present incoming)).
Proof.
  intros Hp Hi. apply NoDup_append_fresh; [exact Hp | now apply survivors_NoDup |].
  intros w Hw. now apply survivors_fresh in Hw.
Qed.

Lemma NoDup_one (ws : list WidgetData) : length ws = 1%nat -> NoDup (id <$> ws).
Proof.
  destruct ws as [| w [| w' ws]]; try discriminate. intros _.
  apply NoDup_singleton.
Qed.

Section ApplicationTheorems.

Variable toString36 : Q -> string.

(** C5: when a debounce timeout fires while the loading flag is set, the
    fetch routine returns at once: the stores (loading flag included), the
    component state, the pending calls and the array heap are as before, and
    the only change is that the fired timeout is no longer pending; no
    timeout is created.  In every reachable state at most one call made by
    the debounced fetch is pending. *)
Theorem C5_timeout_during_fetch_is_dropped :
  (forall (s : App) (handle : nat),
     isLoadingWidgets (stores s) = true ->
     handle ∈ timeouts (runtime s) ->
     exists s',
       step toString36 s (TimeoutFires handle) = Some s' /\
       stores s' = stores s /\
       canvas s' = canvas s /\
       inflight (runtime s') = inflight (runtime s) /\
       heap (runtime s') = heap (runtime s) /\
       nextTimeout (runtime s') = nextTimeout (runtime s) /\
       timeouts (runtime s') = filter (fun h => h <> handle) (timeouts (runtime s)) /\
       handle ∉ timeouts (runtime s')) /\
  (forall s : App,
     reachable toString36 s -> (length (interactionFetches s) <= 1)%nat).
Proof.
  split.
  - intros s handle Hl Hh. exists (dropTimeout handle s). cbn [step].
    destruct (decide _) as [_ | Hn]; [| contradiction].
    rewrite fetchWidgetsForCurrentView_loading by exact Hl.
    repeat split. cbn. rewrite list_elem_of_filter. tauto.
  - intros s Hr.
    destruct (reachable_by_invariant toString36 _ s Hr) as (H1 & _ & _).
    unfold interactionFetches.
    etransitivity; [apply length_filter |].
    destruct H1 as [[_ ->] | [_ ->]]; cbn; lia.
Qed.

(** C7: when a call made by the debounced fetch rejects, the widget store
    holds the same array with the same contents, the error slot shows the
    error's message behind the prefix of the interaction fetch, the loading
    flag is cleared, and nothing is retried: the settled call leaves the
    pending calls, no call is added and no timeout is created. *)
Theorem C7_rejected_fetch_keeps_store (s : App) (k : nat) (now : string)
    (rnd : nat -> Q) (p : Pending) (e : SimulatedError) :
  settlement toString36 s k now rnd = Some (p, Rejected e) ->
  origin p = Interaction ->
  exists s',
    step toString36 s (Settle k now rnd) = Some s' /\
    widgets (stores s') = widgets (stores s) /\
    heap (runtime s') = heap (runtime s) /\
    currentWidgets s' = currentWidgets s /\
    apiError (stores s') = Some ("Interaction fetch failed: " +:+ message e) /\
    isLoadingWidgets (stores s') = false /\
    inflight (runtime s') = delete k (inflight (runtime s)) /\
    timeouts (runtime s') = timeouts (runtime s) /\
    nextTimeout (runtime s') = nextTimeout (runtime s).
Proof.
  intros Hset Ho.
  destruct (settlement_pending _ _ _ _ _ _ _ Hset) as [_ He].
  symmetry in He. apply fetchAllWidgets_settle_error in He.
  eexists. cbn [step]. unfold settle. rewrite Hset. split; [reflexivity |].
  set (s0 := with_runtime (fun r => set_inflight (delete k (inflight r)) r) s).
  destruct (resume_rejected p e s0) as (R1 & _ & _ & R4 & R5 & R6).
  rewrite Ho in R6. unfold or_else in R6.
  destruct (decide (message e = "")) as [Hm | _]; [contradiction |].
  unfold currentWidgets. rewrite R1, R4, R5, R6. repeat split.
Qed.


Lemma NoDup_step (s s' : App) (ev : Event) :
  app_invariant s -> NoDup (widgetIds s) ->
  collision_free toString36 s ev ->
  step toString36 s ev = Some s' ->
  NoDup (widgetIds s').
Proof.
  intros Hinv Hnd Hok Hstep. unfold widgetIds in *.
  assert (Hsame : forall s1, same_fetch_state s s1 -> NoDup (id <$> currentWidgets s1))
    by (intros s1 E; now rewrite (currentWidgets_same _ _ E)).
  destruct ev; cbn [step] in Hstep.
  - injection Hstep as <-. apply Hsame, handleMouseDown_same.
  - injection Hstep as <-. apply Hsame, handleMouseMove_same.
  - injection Hstep as <-. apply Hsame, handleMouseUp_same.
  - injection Hstep as <-. apply Hsame, handleWheel_same.
  - injection Hstep as <-. apply Hsame, handleResize_same.
  - destruct (decide _); [| discriminate]. injection Hstep as <-.
    destruct (isLoadingWidgets (stores (dropTimeout handle s))) eqn:El.
    + rewrite fetchWidgetsForCurrentView_loading by exact El. exact Hnd.
    + rewrite fetchWidgetsForCurrentView_idle by exact El. exact Hnd.
  - destruct (isLoadingWidgets (stores s)); [discriminate |].
    injection Hstep as <-. exact Hnd.
  - injection Hstep as <-. apply Hsame, handleProbabilityChange_same.
  - destruct (apiError (stores s)) as [m |]; [| discriminate].
    destruct (decide _); [discriminate |]. injection Hstep as <-. exact Hnd.
  - destruct Hinv as (_ & H2 & H3).
    destruct (settle_inv _ _ _ _ _ _ Hstep) as (p & o & Hset & ->).
    destruct (settlement_pending _ _ _ _ _ _ _ Hset) as [Hk Ho].
    set (s0 := with_runtime (fun r => set_inflight (delete k (inflight r)) r) s).
    cbn [collision_free] in Hok. rewrite Hset in Hok.
    destruct o as [ws | e].
    + destruct (resume_resolved p ws s0 H3) as (_ & _ & _ & _ & R5).
      rewrite R5. change (currentWidgets s0) with (currentWidgets s).
      assert (Hc : count p = batch_size (origin p))
        by (apply H2; eapply list_elem_of_lookup_2, Hk).
      symmetry in Ho. apply fetchAllWidgets_settle_resolved in Ho.
      destruct (origin p).
      * exact Hok.
      * destruct Hok as [Hws Hfresh]. now apply NoDup_append_fresh.
      * apply NoDup_merge; [exact Hnd |]. apply NoDup_one. now rewrite Ho, Hc.
    + destruct (resume_rejected p e s0) as (R1 & _ & _ & _ & R5 & _).
      unfold currentWidgets. rewrite R1, R5. exact Hnd.
Qed.

(** C1 (amended): in every state reached through initial load, fetch-more
    and debounced merges, the widget store holds no id twice, provided the
    ids of each initial-load batch are pairwise distinct and the ids of each
    fetch-more batch are pairwise distinct and not in the store already; the
    batches of the debounced fetch need no such condition. *)
Theorem C1_store_ids_distinct (s : App) :
  reachable_by toString36 (collision_free toString36) s -> NoDup (widgetIds s).
Proof.
  intros Hr. induction Hr as [cw ch iw ih | s ev s' Hr IH Hok Hstep].
  - constructor.
  - eapply NoDup_step; try eassumption.
    eapply reachable_by_invariant, Hr.
Qed.

End ApplicationTheorems.

(** ** Concrete runs *)

(** C1, as stated, fails: when the generator returns the same id for the
    widgets of the initial batch (every sample is 0.5, whose base-36 form is
    "0.i"), the store holds the id "i" five times after the initial load. *)
Lemma C1_initial_load_with_equal_ids :
  ~ (forall s : App, reachable (fun _ => "0.i") s -> NoDup (widgetIds s)).
Proof.
  intros H.
  assert (Hr : exists s, step (fun _ => "0.i") (mounted 800 600 800 600)
                           (Settle 0 "now" (fun _ => 1 # 2)) = Some s /\
                         widgetIds s = ["i"; "i"; "i"; "i"; "i"]).
  { eexists. split; [vm_compute; reflexivity |]. vm_compute. reflexivity. }
  destruct Hr as (s & Hstep & Hids).
  specialize (H s ltac:(eapply reach_step; [apply reach_mounted | exact I | exact Hstep])).
  rewrite Hids in H. apply NoDup_cons in H as [Hin _]. apply Hin. left.
Qed.

Lemma C1_store_ids_distinct_witness :
  match step numerator36 (mounted 800 600 800 600) (Settle 0 "now" distinct_samples) with
  | Some s => length (widgetIds s) = 5%nat /\ NoDup (widgetIds s)
  | None => False
  end.
Proof.
  destruct (step _ _ _) as [s |] eqn:E.
  - split.
    + vm_compute in E. injection E as <-. reflexivity.
    + apply (C1_store_ids_distinct numerator36).
      eapply reach_step; [apply reach_mounted | | exact E].
      vm_compute. apply (bool_decide_unpack _). vm_compute. exact I.
  - vm_compute in E. discriminate E.
Defined.

Lemma C3_wheel_zoom_clamped_witness :
  let s := with_stores (set_canvasTransform (mkTransform 3 4 10)) (mounted 800 600 800 600) in
  handleWheel 5 5 (-1) 0 0 s = s /\ wheelZoom 10 (-1) = 10.
Proof.
  cbn zeta.
  destruct (C3_wheel_zoom_clamped 5 5 (-1) 0 0
              (with_stores (set_canvasTransform (mkTransform 3 4 10))
                 (mounted 800 600 800 600)))
    as (_ & _ & _ & _ & H10 & _ & _ & Hbound & _).
  split.
  - apply Hbound; reflexivity.
  - apply H10. reflexivity.
Defined.


Lemma C5_timeout_during_fetch_is_dropped_witness :
  let s := handleResize 1024 768 (mounted 800 600 800 600) in
  (exists s', step numerator36 s (TimeoutFires 1) = Some s' /\
              inflight (runtime s') = inflight (runtime s) /\
              timeouts (runtime s') = []) /\
  (length (interactionFetches s) <= 1)%nat.
Proof.
  cbn zeta.
  destruct (C5_timeout_during_fetch_is_dropped numerator36) as [Hdrop Hone].
  split.
  - destruct (Hdrop (handleResize 1024 768 (mounted 800 600 800 600)) 1%nat)
      as (s' & H1 & _ & _ & H4 & _ & _ & H7 & _).
    + reflexivity.
    + apply (bool_decide_unpack _). vm_compute. exact I.
    + exists s'. repeat split; [exact H1 | exact H4 | rewrite H7; reflexivity].
  - apply Hone.
    eapply reach_step; [apply reach_mounted | exact I |].
    instantiate (1 := Resize 1024 768). reflexivity.
Defined.


Lemma C7_rejected_fetch_keeps_store_witness :
  let s := fetchWidgetsForCurrentView (with_canvas (set_viewport 800 600) loaded) in
  exists s',
    step numerator36 s (Settle 0 "now" (fun _ => 1 # 10)) = Some s' /\
    currentWidgets s' = currentWidgets s /\
    apiError (stores s')
    = Some "Interaction fetch failed: Network timeout. Please check your connection." /\
    isLoadingWidgets (stores s') = false.
Proof.
  cbn zeta.
  edestruct (C7_rejected_fetch_keeps_store numerator36
               (fetchWidgetsForCurrentView (with_canvas (set_viewport 800 600) loaded))
               0 "now" (fun _ => 1 # 10))
    as (s' & H1 & _ & _ & H4 & H5 & H6 & _).
  - vm_compute. reflexivity.
  - reflexivity.
  - exists s'. repeat split; [exact H1 | exact H4 | exact H5 | exact H6].
Defined.

(** * Further properties *)

(** ** What settling keeps *)

Lemma resume_keeps (p : Pending) (o : Settled (list WidgetData)) (s : App) :
  canvasTransform (stores (resume p o s)) = canvasTransform (stores s) /\
  errorProbability (stores (resume p o s)) = errorProbability (stores s) /\
  (exists k, heap (runtime (resume p o s)) = heap (runtime s) ++ k) /\
  inflight (runtime (resume p o s)) = inflight (runtime s) /\
  timeouts (runtime (resume p o s)) = timeouts (runtime s) /\
  nextTimeout (runtime (resume p o s)) = nextTimeout (runtime s).
Proof.
  destruct o as [ws | e].
  - unfold resume. cbn [alloc].
    set (h := heap (runtime s)).
    destruct (origin p).
    + cbn. fold h. repeat split. now exists [ws].
    + unfold fetchMoreWidgets_resume, widgets_update, appendWidgets. cbn. fold h.
      repeat split. eexists. now rewrite <- app_assoc.
    + unfold fetchWidgetsForCurrentView_resume, widgets_update.
      cbn [with_runtime runtime set_heap heap stores]. fold h.
      destruct (mergeNewWidgets_cases (length h) (h ++ [ws]) (widgets (stores s)))
        as [[_ ->] | [_ ->]]; cbn; fold h; repeat split.
      * now exists [ws].
      * eexists. now rewrite <- app_assoc.
  - destruct (resume_rejected p e s) as (_ & R2 & R3 & _ & R5 & _).
    rewrite R2, R3, R5. repeat split. exists []. now rewrite app_nil_r.
Qed.

Lemma resume_resolved_error (p : Pending) (ws : list WidgetData) (s : App) :
  apiError (stores (resume p (Resolved ws) s)) = apiError (stores s).
Proof.
  unfold resume. cbn [alloc]. destruct (origin p); cbn; try reflexivity.
  unfold widgets_update. now destruct (mergeNewWidgets _ _ _).
Qed.

Lemma handleWheel_zoom cx cy dY rl rt (s : App) :
  zoom (canvasTransform (stores (handleWheel cx cy dY rl rt s)))
  = zoom (canvasTransform (stores s)) \/
  zoom (canvasTransform (stores (handleWheel cx cy dY rl rt s)))
  = wheelZoom (zoom (canvasTransform (stores s))) dY.
Proof.
  destruct (Qeq_dec (wheelZoom (zoom (canvasTransform (stores s))) dY)
                    (zoom (canvasTransform (stores s)))) as [E | E].
  - left. now rewrite handleWheel_unchanged.
  - right. rewrite handleWheel_changed by exact E. cbn zeta.
    now rewrite triggerDebouncedFetch_stores.
Qed.

Lemma handleMouseMove_stores cx cy (s : App) :
  stores (handleMouseMove cx cy s) = stores s \/
  stores (handleMouseMove cx cy s)
  = set_canvasTransform
      (panBy (cx - lastPanX (canvas s)) (cy - lastPanY (canvas s)) (canvasTransform (stores s)))
      (stores s).
Proof.
  destruct (isPanning (canvas s)) eqn:E.
  - right. now apply handleMouseMove_panning.
  - left. unfold handleMouseMove. now rewrite E.
Qed.

Lemma handleWheel_stores cx cy dY rl rt (s : App) :
  exists t, stores (handleWheel cx cy dY rl rt s) = set_canvasTransform t (stores s).
Proof.
  destruct (Qeq_dec (wheelZoom (zoom (canvasTransform (stores s))) dY)
                    (zoom (canvasTransform (stores s)))) as [E | E].
  - exists (canvasTransform (stores s)). rewrite handleWheel_unchanged by exact E.
    now destruct (stores s).
  - rewrite handleWheel_changed by exact E. cbn zeta.
    rewrite triggerDebouncedFetch_stores. eexists. reflexivity.
Qed.

Section FurtherInvariants.

Variable toString36 : Q -> string.

(** What a turn of the event loop does to the stores, apart from the
    widget array: the transform, the flags and the probability. *)
Lemma step_stores (s s' : App) (ev : Event) :
  step toString36 s ev = Some s' ->
  (is_settle ev = false ->
     widgets (stores s') = widgets (stores s) /\
     heap (runtime s') = heap (runtime s)) /\
  (zoom (canvasTransform (stores s')) = zoom (canvasTransform (stores s)) \/
   exists dY, zoom (canvasTransform (stores s'))
              = wheelZoom (zoom (canvasTransform (stores s))) dY) /\
  (errorProbability (stores s') = errorProbability (stores s) \/
   0 <= errorProbability (stores s') /\ errorProbability (stores s') <= 1) /\
  (isLoadingWidgets (stores s') = true ->
   apiError (stores s') = None \/
   isLoadingWidgets (stores s) = true /\ apiError (stores s') = apiError (stores s)).
Proof.
  intros Hstep. destruct ev; cbn [step] in Hstep.
  - injection Hstep as <-. unfold handleMouseDown. destruct (negb _); cbn; auto 10.
  - injection Hstep as <-.
    destruct (handleMouseMove_same clientX clientY s) as (E1 & E2 & E3 & _).
    destruct (handleMouseMove_stores clientX clientY s) as [E | E]; rewrite E; cbn;
      rewrite <- ?E, ?E2, ?E3; rewrite ?E; cbn; auto 10.
  - injection Hstep as <-. unfold handleMouseUp. destruct (isPanning _); cbn; auto 10.
  - injection Hstep as <-.
    destruct (handleWheel_same clientX clientY deltaY rectLeft rectTop s) as (E1 & E2 & E3 & _).
    pose proof (handleWheel_zoom clientX clientY deltaY rectLeft rectTop s) as Hz.
    destruct (handleWheel_stores clientX clientY deltaY rectLeft rectTop s) as [t E].
    repeat apply conj.
    + auto.
    + destruct Hz as [Hz | Hz]; [left | right; exists deltaY]; exact Hz.
    + left. now rewrite E.
    + intros Hl. right. rewrite E in *. cbn in *. auto.
  - injection Hstep as <-. unfold handleResize.
    rewrite triggerDebouncedFetch_stores.
    destruct (triggerDebouncedFetch_same
                (with_canvas (set_viewport clientWidth clientHeight) s)) as (_ & _ & E3 & _).
    rewrite E3. cbn. auto 10.
  - destruct (decide _); [| discriminate]. injection Hstep as <-.
    destruct (isLoadingWidgets (stores (dropTimeout handle s))) eqn:El.
    + rewrite fetchWidgetsForCurrentView_loading by exact El. cbn. auto 10.
    + rewrite fetchWidgetsForCurrentView_idle by exact El. cbn. auto 10.
  - destruct (isLoadingWidgets (stores s)) eqn:El; [discriminate |].
    injection Hstep as <-. cbn. auto 10.
  - injection Hstep as <-. unfold handleProbabilityChange, setErrorProbability.
    destruct (Qle_bool 0 newProb) eqn:E0; cbn; auto 10.
    destruct (Qle_bool newProb 1) eqn:E1; cbn; auto 10.
    apply Qle_bool_iff in E0, E1. auto 10.
  - destruct (apiError (stores s)) as [m |]; [| discriminate].
    destruct (decide _); [discriminate |]. injection Hstep as <-. cbn. auto 10.
  - destruct (settle_inv _ _ _ _ _ _ Hstep) as (p & o & Hset & ->).
    set (s0 := with_runtime (fun r => set_inflight (delete k (inflight r)) r) s).
    destruct (resume_keeps p o s0) as (K1 & K2 & _).
    rewrite K1, K2. repeat apply conj; auto; try discriminate.
    intros Hl. exfalso.
    destruct o as [ws | e].
    + unfold resume in Hl. cbn [alloc] in Hl. destruct (origin p); cbn in Hl;
        try discriminate.
    + destruct (resume_rejected p e s0) as (_ & _ & _ & R4 & _). congruence.
Qed.

Lemma step_inflight (s s' : App) (ev : Event) :
  step toString36 s ev = Some s' ->
  is_settle ev = false ->
  inflight (runtime s') = inflight (runtime s) \/
  exists p, inflight (runtime s') = inflight (runtime s) ++ [p] /\
            origin p <> InitialLoad /\ isLoadingWidgets (stores s) = false.
Proof.
  intros Hstep Hev. destruct ev; cbn [step] in Hstep; try discriminate Hev.
  - injection Hstep as <-. left. apply handleMouseDown_same.
  - injection Hstep as <-. left. apply handleMouseMove_same.
  - injection Hstep as <-. left. apply handleMouseUp_same.
  - injection Hstep as <-. left. apply handleWheel_same.
  - injection Hstep as <-. left. apply handleResize_same.
  - destruct (decide _); [| discriminate]. injection Hstep as <-.
    destruct (isLoadingWidgets (stores (dropTimeout handle s))) eqn:El.
    + left. now rewrite fetchWidgetsForCurrentView_loading.
    + right. rewrite fetchWidgetsForCurrentView_idle by exact El.
      eexists. split; [reflexivity |]. split; [discriminate | exact El].
  - destruct (isLoadingWidgets (stores s)) eqn:El; [discriminate |].
    injection Hstep as <-. right. eexists. split; [reflexivity |].
    split; [discriminate | reflexivity].
  - injection Hstep as <-. left. apply handleProbabilityChange_same.
  - destruct (apiError (stores s)) as [m |]; [| discriminate].
    destruct (decide _); [discriminate |]. injection Hstep as <-. now left.
Qed.

Lemma settle_clears (s s' : App) k now rnd :
  app_invariant s -> settle toString36 k now rnd s = Some s' ->
  isLoadingWidgets (stores s') = false /\ inflight (runtime s') = [].
Proof.
  intros Hinv Hs.
  pose proof (app_invariant_settle toString36 _ _ _ _ _ Hinv Hs) as (H1 & _).
  destruct (settle_inv _ _ _ _ _ _ Hs) as (p & o & _ & ->).
  set (s0 := with_runtime (fun r => set_inflight (delete k (inflight r)) r) s) in *.
  assert (Hl : isLoadingWidgets (stores (resume p o s0)) = false).
  { destruct o as [ws | e].
    - unfold resume. cbn [alloc]. destruct (origin p); reflexivity.
    - now destruct (resume_rejected p e s0) as (_ & _ & _ & R4 & _). }
  split; [exact Hl |].
  destruct H1 as [[Ht _] | [_ Hi]]; [congruence | exact Hi].
Qed.

Lemma empty_until_loaded_step (s s' : App) (ev : Event) :
  app_invariant s -> empty_until_loaded s ->
  step toString36 s ev = Some s' -> empty_until_loaded s'.
Proof.
  intros Hinv HJ Hstep. unfold empty_until_loaded.
  destruct (is_settle ev) eqn:Hev.
  - destruct ev; try discriminate Hev. cbn [step] in Hstep.
    destruct (settle_clears _ _ _ _ _ Hinv Hstep) as [_ ->].
    intros p Hp. inversion Hp.
  - destruct (step_stores _ _ _ Hstep) as (Hw & _).
    destruct (Hw Hev) as [E1 E2].
    assert (Hcur : currentWidgets s' = currentWidgets s)
      by (unfold currentWidgets; now rewrite E1, E2).
    rewrite Hcur.
    destruct (step_inflight _ _ _ Hstep Hev) as [-> | (q & -> & Hq & Hl)].
    + exact HJ.
    + intros p Hp Ho. apply elem_of_app in Hp as [Hp | Hp]; [now apply (HJ p) |].
      apply list_elem_of_singleton in Hp. now subst p.
Qed.

Lemma reachable_empty_until_loaded (s : App) :
  reachable toString36 s -> empty_until_loaded s.
Proof.
  induction 1 as [cw ch iw ih | s ev s' Hr IH _ Hstep].
  - intros p _ _. reflexivity.
  - eapply empty_until_loaded_step; try eassumption.
    eapply reachable_by_invariant, Hr.
Qed.

(** X1: in every reachable state the zoom lies in [0.1, 10]. *)
Theorem X1_zoom_stays_in_range (s : App) :
  reachable toString36 s -> zoom_in_range s.
Proof.
  induction 1 as [cw ch iw ih | s ev s' _ IH _ Hstep].
  - split; discriminate.
  - destruct (step_stores _ _ _ Hstep) as (_ & [Hz | [dY Hz]] & _);
      unfold zoom_in_range; rewrite Hz; [exact IH | apply wheelZoom_range].
Qed.

(** X2: in every reachable state the error probability lies in [0, 1];
    a slider value outside [0, 1] changes nothing. *)
Theorem X2_error_probability_in_range :
  (forall s : App, reachable toString36 s -> probability_in_range s) /\
  (forall (s : App) (newProb : Q),
     newProb < 0 \/ 1 < newProb -> handleProbabilityChange newProb s = s).
Proof.
  split.
  - induction 1 as [cw ch iw ih | s ev s' _ IH _ Hstep].
    + split; discriminate.
    + destruct (step_stores _ _ _ Hstep) as (_ & _ & [Hp | Hp] & _);
        unfold probability_in_range; [rewrite Hp; exact IH | exact Hp].
  - intros s newProb H. unfold handleProbabilityChange.
    destruct (Qle_bool 0 newProb) eqn:E0; [| reflexivity].
    destruct (Qle_bool newProb 1) eqn:E1; [| reflexivity].
    apply Qle_bool_iff in E0, E1. destruct H; lra.
Qed.

(** X3: in every reachable state the loading flag is set exactly when a
    call of the mock service is pending, and never more than one call is
    pending, whoever made it: initial load, fetch-more button and
    debounced fetch never overlap. *)
Theorem X3_one_pending_call_at_a_time (s : App) :
  reachable toString36 s ->
  (length (inflight (runtime s)) <= 1)%nat /\
  (isLoadingWidgets (stores s) = true <-> inflight (runtime s) <> []).
Proof.
  intros Hr. destruct (reachable_by_invariant toString36 _ s Hr) as (H1 & _ & _).
  destruct H1 as [[Hl Hn] | [Hl Hi]].
  - split; [lia |]. split; [| auto].
    intros _ E. rewrite E in Hn. discriminate.
  - rewrite Hi, Hl. split; [cbn; lia |]. split; [discriminate | congruence].
Qed.

(** X4: in every reachable state, while the loading flag is set the error
    slot is empty: every fetch clears the previous error when it starts. *)
Theorem X4_no_error_shown_while_loading (s : App) :
  reachable toString36 s -> no_error_while_loading s.
Proof.
  induction 1 as [cw ch iw ih | s ev s' _ IH _ Hstep].
  - intros _. reflexivity.
  - intros Hl. destruct (step_stores _ _ _ Hstep) as (_ & _ & _ & He).
    destruct (He Hl) as [E | [Hl0 E]]; [exact E |]. rewrite E. exact (IH Hl0).
Qed.

(** X5: from a reachable state, no turn of the event loop removes, reorders
    or changes a widget of the store: the old contents are a prefix of the
    new ones. *)
Theorem X5_store_only_grows (s s' : App) (ev : Event) :
  reachable toString36 s ->
  step toString36 s ev = Some s' ->
  currentWidgets s `prefix_of` currentWidgets s'.
Proof.
  intros Hr Hstep.
  pose proof (reachable_by_invariant toString36 _ s Hr) as Hinv.
  pose proof (reachable_empty_until_loaded s Hr) as HJ.
  destruct (is_settle ev) eqn:Hev.
  - destruct ev; try discriminate Hev. cbn [step] in Hstep.
    destruct (settle_inv _ _ _ _ _ _ Hstep) as (p & o & Hset & ->).
    destruct (settlement_pending _ _ _ _ _ _ _ Hset) as [Hk _].
    set (s0 := with_runtime (fun r => set_inflight (delete k (inflight r)) r) s).
    destruct Hinv as (_ & _ & H3).
    destruct o as [ws | e].
    + destruct (resume_resolved p ws s0 H3) as (_ & _ & _ & _ & R5).
      rewrite R5. change (currentWidgets s0) with (currentWidgets s).
      destruct (origin p) eqn:Ho.
      * rewrite (HJ p); [apply prefix_nil | eapply list_elem_of_lookup_2, Hk | exact Ho].
      * now apply prefix_app_r.
      * now apply prefix_app_r.
    + destruct (resume_rejected p e s0) as (R1 & _ & _ & _ & R5 & _).
      unfold currentWidgets. now rewrite R1, R5.
  - destruct (step_stores _ _ _ Hstep) as (Hw & _).
    destruct (Hw Hev) as [E1 E2]. unfold currentWidgets. now rewrite E1, E2.
Qed.

(** X6: no turn of the event loop changes an array that exists: every
    location of the heap keeps its contents, so an array a subscriber has
    been handed is never modified behind its back. *)
Theorem X6_arrays_are_never_mutated (s s' : App) (ev : Event) (l : nat) :
  step toString36 s ev = Some s' ->
  (l < length (heap (runtime s)))%nat ->
  deref (heap (runtime s')) l = deref (heap (runtime s)) l.
Proof.
  intros Hstep Hl.
  destruct (is_settle ev) eqn:Hev.
  - destruct ev; try discriminate Hev. cbn [step] in Hstep.
    destruct (settle_inv _ _ _ _ _ _ Hstep) as (p & o & _ & ->).
    destruct (resume_keeps p o
                (with_runtime (fun r => set_inflight (delete k (inflight r)) r) s))
      as (_ & _ & [h' ->] & _).
    unfold deref. cbn. now rewrite lookup_app_l.
  - destruct (step_stores _ _ _ Hstep) as (Hw & _).
    destruct (Hw Hev) as [_ ->]. reflexivity.
Qed.

End FurtherInvariants.

(** ** Debounce *)

Lemma triggerDebouncedFetch_tracked (s : App) :
  timers_tracked s ->
  timers_tracked (triggerDebouncedFetch s) /\
  timeouts (runtime (triggerDebouncedFetch s)) = [nextTimeout (runtime s)].
Proof.
  intros [Hn Ht]. destruct s as [st c [h ts n fl]]. cbn in *.
  unfold triggerDebouncedFetch, timers_tracked.
  destruct Ht as [-> | (h0 & Hh0 & -> & Hd)].
  - destruct (truthy (debounceTimer c)); cbn; (split; [split; [lia |] | reflexivity]);
      right; exists n; auto.
  - cbn. rewrite Hd. cbn.
    destruct (Nat.eqb_spec h0 0) as [E | _]; [contradiction |]. cbn.
    destruct (decide (h0 <> h0)) as [E | _]; [contradiction |]. cbn.
    split; [split; [lia |] | reflexivity]. right. exists n. auto.
Qed.

Lemma timers_tracked_frame (s s' : App) :
  timeouts (runtime s') = timeouts (runtime s) ->
  nextTimeout (runtime s') = nextTimeout (runtime s) ->
  debounceTimer (canvas s') = debounceTimer (canvas s) ->
  timers_tracked s -> timers_tracked s'.
Proof. unfold timers_tracked. intros -> -> ->. auto. Qed.

Lemma handleEvent_tracked (ev : Event) (s : App) :
  timers_tracked s -> timers_tracked (handleEvent ev s).
Proof.
  intros Ht. destruct ev; cbn [handleEvent]; try exact Ht.
  - unfold handleMouseDown. destruct (negb _); [exact Ht |].
    revert Ht. now apply timers_tracked_frame.
  - unfold handleMouseMove. destruct (negb _); [exact Ht |].
    apply triggerDebouncedFetch_tracked. revert Ht. now apply timers_tracked_frame.
  - unfold handleMouseUp. destruct (isPanning _); [| exact Ht].
    revert Ht. now apply timers_tracked_frame.
  - destruct (Qeq_dec (wheelZoom (zoom (canvasTransform (stores s))) deltaY)
                      (zoom (canvasTransform (stores s)))) as [E | E].
    + now rewrite handleWheel_unchanged.
    + rewrite handleWheel_changed by exact E. cbn zeta.
      apply triggerDebouncedFetch_tracked. revert Ht. now apply timers_tracked_frame.
  - unfold handleResize.
    apply triggerDebouncedFetch_tracked. revert Ht. now apply timers_tracked_frame.
Qed.

Lemma burst_tracked (evs : list Event) (s : App) :
  timers_tracked s -> timers_tracked (burst evs s).
Proof.
  revert s. induction evs as [| ev evs IH]; intros s Ht; [exact Ht |].
  cbn. apply IH, handleEvent_tracked, Ht.
Qed.

Lemma burst_snoc (evs : list Event) (ev : Event) (s : App) :
  burst (evs ++ [ev]) s = handleEvent ev (burst evs s).
Proof. unfold burst. now rewrite fold_left_app. Qed.

(** X7: debounce coalescing.  From a state where the component tracks its
    pending timeout, any burst of pointer, wheel and resize events leaves at
    most one timeout pending; when the burst ends with a resize, a pan move
    or a zoom change, exactly one is pending, created by that last event. *)
Theorem X7_burst_leaves_one_timeout (evs : list Event) (s : App) :
  timers_tracked s ->
  (length (timeouts (runtime (burst evs s))) <= 1)%nat /\
  (forall w h,
     timeouts (runtime (burst (evs ++ [Resize w h]) s))
     = [nextTimeout (runtime (burst evs s))]) /\
  (forall cx cy,
     isPanning (canvas (burst evs s)) = true ->
     timeouts (runtime (burst (evs ++ [MouseMove cx cy]) s))
     = [nextTimeout (runtime (burst evs s))]) /\
  (forall cx cy dY rl rt,
     ~ wheelZoom (zoom (canvasTransform (stores (burst evs s)))) dY
       == zoom (canvasTransform (stores (burst evs s))) ->
     timeouts (runtime (burst (evs ++ [Wheel cx cy dY rl rt]) s))
     = [nextTimeout (runtime (burst evs s))]).
Proof.
  intros Ht. pose proof (burst_tracked evs s Ht) as Hb.
  set (s1 := burst evs s) in *.
  repeat apply conj.
  - destruct Hb as [_ [-> | (h & _ & -> & _)]]; cbn; lia.
  - intros w h. rewrite burst_snoc. fold s1. cbn [handleEvent]. unfold handleResize.
    apply (triggerDebouncedFetch_tracked (with_canvas (set_viewport w h) s1)).
    revert Hb. now apply timers_tracked_frame.
  - intros cx cy Hp. rewrite burst_snoc. fold s1. cbn [handleEvent].
    unfold handleMouseMove. rewrite Hp. cbn [negb].
    match goal with |- timeouts (runtime (triggerDebouncedFetch ?x)) = _ =>
      apply (triggerDebouncedFetch_tracked x) end.
    revert Hb. now apply timers_tracked_frame.
  - intros cx cy dY rl rt Hne. rewrite burst_snoc. fold s1. cbn [handleEvent].
    rewrite handleWheel_changed by exact Hne. cbn zeta.
    match goal with |- timeouts (runtime (triggerDebouncedFetch ?x)) = _ =>
      apply (triggerDebouncedFetch_tracked x) end.
    revert Hb. now apply timers_tracked_frame.
Qed.

(** X8: the timeout a settling debounced fetch forgets.  When a call of the
    debounced fetch settles, the component sets [debounceTimer] to null
    without cancelling anything: the pending timeouts stay pending, and the
    next resize adds a timeout beside them instead of replacing them. *)
Theorem X8_settled_fetch_forgets_its_timeout (toString36 : Q -> string)
    (s s1 : App) (k : nat) (now : string) (rnd : nat -> Q) (p : Pending) :
  inflight (runtime s) !! k = Some p ->
  origin p = Interaction ->
  step toString36 s (Settle k now rnd) = Some s1 ->
  debounceTimer (canvas s1) = None /\
  timeouts (runtime s1) = timeouts (runtime s) /\
  forall w h,
    timeouts (runtime (handleResize w h s1))
    = timeouts (runtime s) ++ [nextTimeout (runtime s)].
Proof.
  intros Hk Ho Hstep. cbn [step] in Hstep.
  destruct (settle_inv _ _ _ _ _ _ Hstep) as (q & o & Hset & ->).
  destruct (settlement_pending _ _ _ _ _ _ _ Hset) as [Hk' _].
  assert (q = p) by congruence. subst q.
  set (s0 := with_runtime (fun r => set_inflight (delete k (inflight r)) r) s).
  destruct (resume_keeps p o s0) as (_ & _ & _ & _ & K5 & K6).
  assert (Hd : debounceTimer (canvas (resume p o s0)) = None).
  { unfold resume. destruct o as [ws | e]; cbn [alloc]; rewrite Ho; [| reflexivity].
    unfold fetchWidgetsForCurrentView_resume, widgets_update.
    now destruct (mergeNewWidgets _ _ _). }
  repeat apply conj; [exact Hd | exact K5 |].
  intros w h. unfold handleResize, triggerDebouncedFetch.
  cbn [with_canvas canvas set_viewport debounceTimer]. rewrite Hd. cbn [truthy].
  cbn. rewrite K5, K6. reflexivity.
Qed.

(** X9: leaving the page cancels the tracked timeout: from a state where the
    component tracks its pending timeout, no timeout is pending after the
    clean-up of [onMount], and nothing else has changed. *)
Theorem X9_unmount_cancels_the_timeout (s : App) :
  timers_tracked s ->
  timeouts (runtime (unmount s)) = [] /\
  stores (unmount s) = stores s /\ canvas (unmount s) = canvas s /\
  inflight (runtime (unmount s)) = inflight (runtime s) /\
  heap (runtime (unmount s)) = heap (runtime s).
Proof.
  intros [_ Ht]. unfold unmount.
  destruct Ht as [E | (h & Hh & E & Hd)].
  - destruct (truthy _); cbn; rewrite E; auto.
  - rewrite Hd. cbn. destruct (Nat.eqb_spec h 0) as [E0 | _]; [contradiction |]. cbn.
    rewrite E, filter_cons, filter_nil.
    destruct (decide (h <> h)) as [E1 | _]; [contradiction |]. auto.
Qed.

(** ** Dragging and zooming back *)

Lemma drag_cons (p : Q * Q) (path : list (Q * Q)) (s : App) :
  drag (p :: path) s = drag path (handleMouseMove (fst p) (snd p) s).
Proof. reflexivity. Qed.

Lemma last_cons_default {A} (l : list A) (a d : A) :
  List.last (a :: l) d = List.last l a.
Proof.
  revert a d. induction l as [| b l IH]; intros a d; [reflexivity |].
  change (List.last (a :: b :: l) d) with (List.last (b :: l) d).
  now rewrite (IH b d), (IH b a).
Qed.

Lemma drag_end (path : list (Q * Q)) (p : Q * Q) (s : App) :
  isPanning (canvas s) = true ->
  let s' := drag (p :: path) s in
  let q := List.last path p in
  let t := canvasTransform (stores s) in
  let t' := canvasTransform (stores s') in
  panX t' == panX t + (fst q - lastPanX (canvas s)) / zoom t /\
  panY t' == panY t + (snd q - lastPanY (canvas s)) / zoom t /\
  zoom t' = zoom t /\
  isPanning (canvas s') = true /\
  lastPanX (canvas s') = fst q /\ lastPanY (canvas s') = snd q.
Proof.
  revert p s. induction path as [| p' path IH]; intros p s Hp; cbn zeta.
  - cbn [drag fold_left List.last].
    destruct (handleMouseMove_panning (fst p) (snd p) s Hp) as (E & Hp1 & Ex & Ey).
    rewrite E. cbn. repeat apply conj; auto; reflexivity.
  - rewrite drag_cons.
    destruct (handleMouseMove_panning (fst p) (snd p) s Hp) as (E & Hp1 & Ex & Ey).
    specialize (IH p' _ Hp1). cbn zeta in IH.
    destruct IH as (I1 & I2 & I3 & I4 & I5 & I6).
    rewrite (last_cons_default path p' p).
    rewrite I1, I2, I3, Ex, Ey, E.
    cbn [set_canvasTransform canvasTransform panBy panX panY zoom].
    repeat apply conj; auto; unfold Qdiv; ring.
Qed.

(** X10: while the button is held, the pan after a drag depends only on
    where the pointer started and where it ended, not on the path (in exact
    arithmetic): it is the starting pan plus the total displacement divided
    by the zoom, and the zoom is unchanged. *)
Theorem X10_drag_depends_on_endpoints (path : list (Q * Q)) (p : Q * Q) (s : App) :
  isPanning (canvas s) = true ->
  let q := List.last path p in
  let t := canvasTransform (stores s) in
  let t' := canvasTransform (stores (drag (p :: path) s)) in
  let direct := canvasTransform (stores (handleMouseMove (fst q) (snd q) s)) in
  panX t' == panX t + (fst q - lastPanX (canvas s)) / zoom t /\
  panY t' == panY t + (snd q - lastPanY (canvas s)) / zoom t /\
  panX t' == panX direct /\ panY t' == panY direct /\
  zoom t' = zoom t.
Proof.
  intros Hp. cbn zeta.
  destruct (drag_end path p s Hp) as (D1 & D2 & D3 & _).
  destruct (handleMouseMove_panning (fst (List.last path p)) (snd (List.last path p)) s Hp)
    as (E & _).
  rewrite E. cbn [set_canvasTransform canvasTransform panBy panX panY].
  repeat apply conj; assumption.
Qed.

Lemma X10_drag_depends_on_endpoints_witness :
  let s := handleMouseDown 0 10 10 (mounted 800 600 800 600) in
  panX (canvasTransform (stores (drag [(12, 40); (90, 7); (30, 20)] s)))
  == 0 + (30 - 10) / 1.
Proof.
  cbn zeta.
  exact (proj1 (X10_drag_depends_on_endpoints [(90, 7); (30, 20)] (12, 40)
                  (handleMouseDown 0 10 10 (mounted 800 600 800 600)) eq_refl)).
Defined.

Lemma wheelZoom_in (z dY : Q) :
  dY < 0 -> 0.1 <= z -> z * 1.15 <= 10 -> wheelZoom z dY = z * 1.15.
Proof.
  intros Hd Hlo Hhi.
  assert (E : requestedZoom z dY = z * 1.15)
    by (unfold requestedZoom; apply Qlt_bool_iff in Hd; now rewrite Hd).
  destruct (wheelZoom_cases z dY) as [[H _] | [[H _] | (_ & _ & ->)]];
    cbn zeta in *; rewrite ?E in *; try lra. reflexivity.
Qed.

Lemma wheelZoom_out (z dY : Q) :
  0 <= dY -> 0.1 <= z / 1.15 -> z <= 10 -> wheelZoom z dY = z / 1.15.
Proof.
  intros Hd Hlo Hhi.
  assert (E : requestedZoom z dY = z / 1.15)
    by (unfold requestedZoom; apply Qlt_bool_false in Hd; now rewrite Hd).
  assert (Hz : z / 1.15 <= z).
  { assert (E' : z / 1.15 == z * (100 # 115)) by (unfold Qdiv; reflexivity).
    rewrite E' in *. lra. }
  destruct (wheelZoom_cases z dY) as [[H _] | [[H _] | (_ & _ & ->)]];
    cbn zeta in *; rewrite ?E in *; try lra. reflexivity.
Qed.

(** X11: zooming in and then out again at the same cursor position gives
    back the transform (in exact arithmetic), as long as the zoom in is not
    clamped: zoom and pan return to their values. *)
Theorem X11_zoom_in_then_out_restores (cx cy dIn dOut rl rt : Q) (s : App) :
  let t := canvasTransform (stores s) in
  dIn < 0 -> 0 <= dOut ->
  0.1 <= zoom t -> zoom t * 1.15 <= 10 ->
  let t2 := canvasTransform (stores
              (handleWheel cx cy dOut rl rt (handleWheel cx cy dIn rl rt s))) in
  zoom t2 == zoom t /\ panX t2 == panX t /\ panY t2 == panY t.
Proof.
  cbn zeta. intros Hin Hout Hlo Hhi.
  set (t := canvasTransform (stores s)) in *.
  assert (E1 : wheelZoom (zoom t) dIn = zoom t * 1.15) by now apply wheelZoom_in.
  assert (Hne1 : ~ wheelZoom (zoom t) dIn == zoom t) by (rewrite E1; lra).
  rewrite (handleWheel_changed cx cy dIn rl rt s Hne1). cbn zeta. fold t.
  rewrite E1.
  set (s1 := triggerDebouncedFetch _).
  assert (Et1 : canvasTransform (stores s1) =
                {| panX := (cx - rl) / (zoom t * 1.15) - fst (screenToWorld t (cx - rl) (cy - rt));
                   panY := (cy - rt) / (zoom t * 1.15) - snd (screenToWorld t (cx - rl) (cy - rt));
                   zoom := zoom t * 1.15 |})
    by (unfold s1; now rewrite triggerDebouncedFetch_stores).
  assert (Hdiv : zoom t * 1.15 / 1.15 == zoom t) by (field; discriminate).
  assert (E2 : wheelZoom (zoom (canvasTransform (stores s1))) dOut = zoom t * 1.15 / 1.15).
  { rewrite Et1. cbn [zoom]. apply wheelZoom_out; [exact Hout | | exact Hhi].
    rewrite Hdiv. exact Hlo. }
  assert (Hne2 : ~ wheelZoom (zoom (canvasTransform (stores s1))) dOut
                   == zoom (canvasTransform (stores s1))).
  { rewrite E2, Et1. cbn [zoom]. rewrite Hdiv. lra. }
  rewrite (handleWheel_changed cx cy dOut rl rt s1 Hne2). cbn zeta.
  rewrite triggerDebouncedFetch_stores, E2, Et1.
  cbn [with_stores stores set_canvasTransform canvasTransform screenToWorld
       fst snd panX panY zoom].
  repeat apply conj.
  - exact Hdiv.
  - field. lra.
  - field. lra.
Qed.

Lemma X11_zoom_in_then_out_restores_witness :
  let s := with_stores (set_canvasTransform (mkTransform 3 (-7) 2)) (mounted 800 600 800 600) in
  panX (canvasTransform (stores
          (handleWheel 100 50 1 0 0 (handleWheel 100 50 (-1) 0 0 s)))) == 3.
Proof.
  cbn zeta.
  refine (proj1 (proj2 (X11_zoom_in_then_out_restores 100 50 (-1) 1 0 0
    (with_stores (set_canvasTransform (mkTransform 3 (-7) 2)) (mounted 800 600 800 600))
    _ _ _ _))); vm_compute; solve [reflexivity | discriminate].
Defined.

(** ** More on the mock network service *)

Lemma floorIndex_lt (r : Q) (n : nat) :
  0 <= r -> r < 1 -> (0 < n)%nat -> (floorIndex r n < n)%nat.
Proof.
  intros H0 H1 Hn. unfold floorIndex.
  set (m := inject_Z (Z.of_nat n)).
  assert (Hm : 0 < m) by (unfold m; change 0 with (inject_Z 0); rewrite <- Zlt_Qlt; lia).
  assert (Hlo : 0 <= r * m) by (apply Qmult_le_0_compat; [exact H0 | lra]).
  assert (Hhi : r * m < m).
  { assert (H' : r * m < 1 * m) by (apply Qmult_lt_compat_r; assumption).
    revert H'. generalize (r * m). intros a H'. lra. }
  pose proof (Qfloor_resp_le _ _ Hlo) as Hf0.
  assert (E0 : Qfloor 0 = 0%Z) by reflexivity. rewrite E0 in Hf0.
  pose proof (Qfloor_le (r * m)) as Hf1.
  assert (Hf2 : (Qfloor (r * m) < Z.of_nat n)%Z).
  { rewrite Zlt_Qlt. fold m. lra. }
  lia.
Qed.

Lemma pick_elem (arr : list string) (r : Q) :
  0 <= r -> r < 1 -> arr <> [] -> pick arr r ∈ arr.
Proof.
  intros H0 H1 Hne. unfold pick. apply list_elem_of_In, nth_In.
  apply floorIndex_lt; [exact H0 | exact H1 |].
  destruct arr; [contradiction | cbn; lia].
Qed.

Lemma substring_length (n m : nat) (str : string) :
  (String.length (String.substring n m str) <= m)%nat.
Proof.
  revert n m. induction str as [| c str IH]; intros n m.
  - destruct n, m; cbn; lia.
  - destruct n as [| n].
    + destruct m as [| m]; cbn; [lia |]. specialize (IH 0%nat m). lia.
    + cbn. apply IH.
Qed.

Lemma spawn_offset (r R : Q) :
  0 <= r -> r < 1 -> 0 < R -> - R <= r * R * 2 - R /\ r * R * 2 - R < R.
Proof.
  intros H0 H1 HR.
  assert (Hlo : 0 <= r * R) by (apply Qmult_le_0_compat; [exact H0 | lra]).
  assert (Hhi : r * R < R).
  { assert (H' : r * R < 1 * R) by (apply Qmult_lt_compat_r; assumption).
    revert H'. generalize (r * R). intros a H'. lra. }
  revert Hlo Hhi. generalize (r * R). intros a Hlo Hhi. split; lra.
Qed.

Section MoreMockApiService.

Variable toString36 : Q -> string.

Lemma spawnWidgets_widgets todo i cx cy z rnd j (w : WidgetData) :
  unit_samples rnd -> 0 < z ->
  w ∈ fst (spawnWidgets toString36 todo i cx cy z rnd j) ->
  spawned_widget (i + todo) cx cy z w.
Proof.
  intros Hu Hz. revert i j. induction todo as [| n IH]; intros i j Hw.
  - inversion Hw.
  - cbn [spawnWidgets] in Hw. unfold bind at 1 2 3 4 5 6 in Hw.
    unfold generateRandomId, bind, Math_random, ret in Hw. cbn [fst snd] in Hw.
    specialize (IH (S i) (S (S (S (S (S j)))))).
    destruct (spawnWidgets toString36 n (S i) cx cy z rnd (S (S (S (S (S j))))))
      as [rest j'] eqn:Erest.
    cbn [fst] in *. apply elem_of_cons in Hw as [-> | Hw].
    + assert (HR : 0 < 300 / z) by (apply Qdiv_spos; [reflexivity | exact Hz]).
      destruct (Hu (S j)) as [Ht0 Ht1]. destruct (Hu (S (S j))) as [Hc0 Hc1].
      destruct (Hu (S (S (S j)))) as [Hx0 Hx1]. destruct (Hu (S (S (S (S j))))) as [Hy0 Hy1].
      pose proof (spawn_offset _ _ Hx0 Hx1 HR) as [Hxa Hxb].
      pose proof (spawn_offset _ _ Hy0 Hy1 HR) as [Hya Hyb].
      unfold spawned_widget. cbn [x y id content title].
      repeat apply conj; try lra.
      * apply substring_length.
      * apply pick_elem; [exact Hc0 | exact Hc1 | discriminate].
      * exists (pick MOCK_WIDGET_TITLES (rnd (S j))), (i + 1)%nat.
        repeat apply conj; try lia; [| reflexivity].
        apply pick_elem; [exact Ht0 | exact Ht1 | discriminate].
    + specialize (IH Hw). replace (i + S n)%nat with (S i + n)%nat by lia. exact IH.
Qed.

Lemma fetchAllWidgets_settle_widgets errorRate now count cx cy z rnd i ws w :
  unit_samples rnd -> 0 < z ->
  fst (fetchAllWidgets_settle toString36 errorRate now count cx cy z rnd i) = Resolved ws ->
  w ∈ ws -> spawned_widget count cx cy z w.
Proof.
  intros Hu Hz. unfold fetchAllWidgets_settle, shouldSimulateError, bind at 1 2,
    Math_random, ret.
  destruct (Qlt_bool (rnd i) errorRate).
  - unfold bind. destruct (simulateError _ _ _ _). discriminate.
  - unfold bind.
    pose proof (spawnWidgets_widgets count 0 cx cy z rnd (S i) w Hu Hz) as H.
    destruct (spawnWidgets _ _ _ _ _ _ _ _) as [l j]. cbn [fst] in *.
    intros E. injection E as <-. exact H.
Qed.

(** X14: when [fetchAllWidgets] resolves (samples in [0, 1), zoom above
    0), the batch has exactly [count] widgets, and every widget has an id of at most 13
    characters, a content from the fixed list and a title from the fixed list
    followed by " #" and a number between 1 and [count]. *)
Theorem X14_resolved_batch_shape errorRate now count cx cy z rnd i ws :
  unit_samples rnd -> 0 < z ->
  snd (fst (fetchAllWidgets toString36 errorRate now count cx cy z rnd i)) = Resolved ws ->
  length ws = count /\ forall w, w ∈ ws -> batch_widget count w.
Proof.
  intros Hu Hz. unfold fetchAllWidgets, bind at 1 2, Math_random, ret.
  pose proof (fetchAllWidgets_settle_resolved toString36 errorRate now count cx cy z rnd (S i) ws)
    as Hlen.
  pose proof (fun w => fetchAllWidgets_settle_widgets errorRate now count cx cy z rnd (S i) ws w
                         Hu Hz) as Hall.
  destruct (fetchAllWidgets_settle _ _ _ _ _ _ _ _ _) as [o j]. cbn [fst snd] in *.
  intros ->. split; [now apply Hlen |].
  intros w Hw. destruct (Hall w eq_refl Hw) as (_ & _ & H). exact H.
Qed.

(** X15: when [fetchWidgetData] resolves (samples in [0, 1)), the widget
    carries the requested id, whole-number coordinates between -500 and 499,
    and a title and a content from the fixed lists. *)
Theorem X15_resolved_widget_shape errorRate now widgetId rnd i (w : WidgetData) :
  unit_samples rnd ->
  snd (fst (fetchWidgetData errorRate now widgetId rnd i)) = Resolved w ->
  id w = widgetId /\
  (exists kx ky : Z,
     x w = inject_Z kx /\ y w = inject_Z ky /\
     (-500 <= kx <= 499)%Z /\ (-500 <= ky <= 499)%Z) /\
  title w ∈ MOCK_WIDGET_TITLES /\ content w ∈ MOCK_WIDGET_CONTENTS.
Proof.
  intros Hu. unfold fetchWidgetData, fetchWidgetData_settle, shouldSimulateError,
    simulateError, bind, Math_random, ret.
  destruct (Qlt_bool (rnd (S i)) errorRate); [discriminate |].
  cbn [fst snd]. intros E. injection E as <-. cbn [id x y title content].
  destruct (Hu (S (S i))) as [Ht0 Ht1]. destruct (Hu (S (S (S i)))) as [Hc0 Hc1].
  assert (Hfloor : forall r, 0 <= r -> r < 1 ->
            (-500 <= Qfloor (r * 1000 - 500) <= 499)%Z).
  { intros r H0 H1.
    assert (Hlo : -500 <= r * 1000 - 500) by lra.
    apply Qfloor_resp_le in Hlo.
    assert (E0 : Qfloor (-500) = (-500)%Z) by reflexivity. rewrite E0 in Hlo.
    pose proof (Qfloor_le (r * 1000 - 500)) as Hle.
    assert (Hq : inject_Z (Qfloor (r * 1000 - 500)) < inject_Z 500)
      by (change (inject_Z 500) with 500; lra).
    rewrite <- Zlt_Qlt in Hq. lia. }
  repeat apply conj.
  - reflexivity.
  - eexists _, _. repeat apply conj; try reflexivity; apply Hfloor; apply Hu.
  - apply pick_elem; [exact Ht0 | exact Ht1 | discriminate].
  - apply pick_elem; [exact Hc0 | exact Hc1 | discriminate].
Qed.

(** X16: an error the mock service rejects with (samples in [0, 1)) is one
    of the four fixed templates, chosen by the quarter of [0, 1) the sample
    falls in; it carries the clock reading and the parameters of the request
    that failed. *)
Theorem X16_rejection_is_a_template errorRate now count cx cy z rnd i (e : SimulatedError) :
  unit_samples rnd ->
  snd (fst (fetchAllWidgets toString36 errorRate now count cx cy z rnd i)) = Rejected e ->
  (exists t, errorTypes !! floorIndex (rnd (S (S i))) 4 = Some t /\
             message e = tMessage t /\ errorType e = tType t /\ status e = tStatus t) /\
  timestamp e = now /\
  requestParams e = BatchParams count cx cy z.
Proof.
  intros Hu. unfold fetchAllWidgets, fetchAllWidgets_settle, shouldSimulateError,
    bind at 1 2 3 4, Math_random, ret.
  destruct (Qlt_bool (rnd (S i)) errorRate).
  - unfold simulateError, bind, Math_random, ret. cbn [fst snd].
    intros E. injection E as <-. cbn [message errorType status timestamp requestParams].
    repeat apply conj; try reflexivity.
    destruct (Hu (S (S i))) as [H0 H1].
    pose proof (floorIndex_lt (rnd (S (S i))) 4 H0 H1 ltac:(lia)) as Hlt.
    change (length errorTypes) with 4%nat.
    destruct (floorIndex (rnd (S (S i))) 4) as [| [| [| [| n]]]]; try lia;
      eexists; (split; [reflexivity |]); auto.
  - unfold bind. destruct (spawnWidgets _ _ _ _ _ _ _ _). discriminate.
Qed.

Lemma fetchWidgetData_latency errorRate now widgetId rnd i :
  fst (fst (fetchWidgetData errorRate now widgetId rnd i)) = rnd i * 800 + 200.
Proof.
  unfold fetchWidgetData, bind, Math_random, ret.
  now destruct (fetchWidgetData_settle _ _ _ _ _).
Qed.

Lemma fetchAllWidgets_latency errorRate now count cx cy z rnd i :
  fst (fst (fetchAllWidgets toString36 errorRate now count cx cy z rnd i))
  = rnd i * 1500 + 500.
Proof.
  unfold fetchAllWidgets, bind, Math_random, ret.
  now destruct (fetchAllWidgets_settle _ _ _ _ _ _ _ _ _).
Qed.

(** X17: the simulated latency (samples in [0, 1)) is at least 200 ms and
    below 1000 ms for [fetchWidgetData], at least 500 ms and below 2000 ms
    for [fetchAllWidgets]. *)
Theorem X17_latency_bounds errorRate now rnd i :
  unit_samples rnd ->
  (forall widgetId,
     200 <= fst (fst (fetchWidgetData errorRate now widgetId rnd i)) /\
     fst (fst (fetchWidgetData errorRate now widgetId rnd i)) < 1000) /\
  (forall count cx cy z,
     500 <= fst (fst (fetchAllWidgets toString36 errorRate now count cx cy z rnd i)) /\
     fst (fst (fetchAllWidgets toString36 errorRate now count cx cy z rnd i)) < 2000).
Proof.
  intros Hu. destruct (Hu i) as [H0 H1]. split.
  - intros widgetId. rewrite fetchWidgetData_latency. split; lra.
  - intros count cx cy z. rewrite fetchAllWidgets_latency. split; lra.
Qed.

End MoreMockApiService.

(** ** The fetches of the page *)

Section PageFetches.

Variable toString36 : Q -> string.

(** X12: when the initial load or a fetch-more call resolves in a
    reachable state, the loading flag is cleared and the whole batch goes
    into the store, unfiltered: the initial load finds the store empty and
    leaves its 5 widgets there, fetch-more appends its 3 widgets after the
    widgets already there, even if an id is already present. *)
Theorem X12_page_fetch_resolves (s : App) (k : nat) (now : string) (rnd : nat -> Q)
    (p : Pending) (ws : list WidgetData) :
  reachable toString36 s ->
  settlement toString36 s k now rnd = Some (p, Resolved ws) ->
  origin p <> Interaction ->
  exists s',
    step toString36 s (Settle k now rnd) = Some s' /\
    isLoadingWidgets (stores s') = false /\
    match origin p with
    | InitialLoad =>
        length ws = 5%nat /\ currentWidgets s = [] /\ currentWidgets s' = ws
    | FetchMore =>
        length ws = 3%nat /\ currentWidgets s' = currentWidgets s ++ ws
    | Interaction => False
    end.
Proof.
  intros Hr Hset Ho.
  destruct (reachable_by_invariant toString36 _ s Hr) as (_ & H2 & H3).
  pose proof (reachable_empty_until_loaded toString36 s Hr) as HJ.
  destruct (settlement_pending _ _ _ _ _ _ _ Hset) as [Hk Hws].
  symmetry in Hws. apply fetchAllWidgets_settle_resolved in Hws.
  assert (Hp : p ∈ inflight (runtime s)) by (eapply list_elem_of_lookup_2, Hk).
  rewrite (H2 p Hp) in Hws.
  eexists. cbn [step]. unfold settle. rewrite Hset. split; [reflexivity |].
  set (s0 := with_runtime (fun r => set_inflight (delete k (inflight r)) r) s).
  destruct (resume_resolved p ws s0 H3) as (R1 & _ & _ & _ & R5).
  split; [exact R1 |]. rewrite R5.
  change (currentWidgets s0) with (currentWidgets s).
  destruct (origin p) eqn:E; [| | contradiction]; cbn in Hws; auto.
  repeat split; [exact Hws |]. now apply (HJ p).
Qed.

(** X13: when the initial load or a fetch-more call rejects, the store
    and the heap are as before, the error slot shows the bare message of the
    error, and the loading flag is cleared; no call is added. *)
Theorem X13_page_fetch_rejects (s : App) (k : nat) (now : string) (rnd : nat -> Q)
    (p : Pending) (e : SimulatedError) :
  settlement toString36 s k now rnd = Some (p, Rejected e) ->
  origin p <> Interaction ->
  exists s',
    step toString36 s (Settle k now rnd) = Some s' /\
    currentWidgets s' = currentWidgets s /\
    heap (runtime s') = heap (runtime s) /\
    apiError (stores s') = Some (message e) /\
    isLoadingWidgets (stores s') = false /\
    inflight (runtime s') = delete k (inflight (runtime s)).
Proof.
  intros Hset Ho.
  destruct (settlement_pending _ _ _ _ _ _ _ Hset) as [_ He].
  symmetry in He. apply fetchAllWidgets_settle_error in He.
  eexists. cbn [step]. unfold settle. rewrite Hset. split; [reflexivity |].
  set (s0 := with_runtime (fun r => set_inflight (delete k (inflight r)) r) s).
  destruct (resume_rejected p e s0) as (R1 & _ & _ & R4 & R5 & R6).
  unfold or_else in R6.
  destruct (decide (message e = "")) as [Hm | _]; [contradiction |].
  unfold currentWidgets. rewrite R1, R4, R5, R6.
  destruct (origin p); [| | contradiction]; repeat split.
Qed.

End PageFetches.

(** ** Culling and spawning *)

(** X18: in exact arithmetic, every widget the debounced fetch brings
    passes the culling test of the transform it was asked for.  With a
    viewport at least 400 pixels wide and high, a zoom above 0 and samples in
    [0, 1), a batch requested at the centre [fetchWidgetsForCurrentView]
    computes for transform [t] only holds widgets for which [isWidgetInView]
    is true at [t]: the spawn radius [300 / zoom] stays within the rectangle
    the test examines, buffer included.  (On binary64 numbers a widget
    spawned at the very edge can round onto the boundary and fail the strict
    comparison.) *)
Theorem X18_spawned_widgets_pass_culling (toString36 : Q -> string)
    (vw vh : Q) (t : CanvasTransform) errorRate now count rnd i
    (ws : list WidgetData) (w : WidgetData) :
  unit_samples rnd -> 0 < zoom t -> 400 <= vw -> 400 <= vh ->
  fst (fetchAllWidgets_settle toString36 errorRate now count
         (vw / 2 / zoom t - panX t) (vh / 2 / zoom t - panY t) (zoom t) rnd i)
  = Resolved ws ->
  w ∈ ws ->
  isWidgetInView vw vh w t = true.
Proof.
  intros Hu Hz Hw Hh Hres Hin.
  destruct (fetchAllWidgets_settle_widgets toString36 _ _ _ _ _ _ _ _ _ _ Hu Hz Hres Hin)
    as ((Hx0 & Hx1) & (Hy0 & Hy1) & _).
  apply isWidgetInView_true.
  assert (Hd : 0 < / zoom t) by (apply Qinv_lt_0_compat, Hz).
  assert (Ha : 400 * / zoom t <= vw * / zoom t)
    by (apply Qmult_le_compat_r; [exact Hw | lra]).
  assert (Hb : 400 * / zoom t <= vh * / zoom t)
    by (apply Qmult_le_compat_r; [exact Hh | lra]).
  assert (Ea : vw / 2 / zoom t == vw * / zoom t * (1 # 2)) by (field; lra).
  assert (Eb : vh / 2 / zoom t == vh * / zoom t * (1 # 2)) by (field; lra).
  rewrite Ea in Hx0, Hx1. rewrite Eb in Hy0, Hy1.
  unfold Qdiv in *.
  revert Hx0 Hx1 Hy0 Hy1 Ha Hb Hd.
  generalize (vw * / zoom t) (vh * / zoom t) (/ zoom t).
  intros a b d Hx0 Hx1 Hy0 Hy1 Ha Hb Hd.
  repeat apply conj; lra.
Qed.

(** X19: the culling test is monotone in the viewport size: at a zoom
    above 0, a widget in view stays in view when the viewport grows. *)
Theorem X19_culling_monotone_in_viewport (vw vh vw' vh' : Q)
    (w : WidgetData) (t : CanvasTransform) :
  0 < zoom t -> vw <= vw' -> vh <= vh' ->
  isWidgetInView vw vh w t = true -> isWidgetInView vw' vh' w t = true.
Proof.
  intros Hz Hw Hh. rewrite !isWidgetInView_true.
  assert (Hd : 0 < / zoom t) by (apply Qinv_lt_0_compat, Hz).
  assert (Ha : vw * / zoom t <= vw' * / zoom t)
    by (apply Qmult_le_compat_r; [exact Hw | lra]).
  assert (Hb : vh * / zoom t <= vh' * / zoom t)
    by (apply Qmult_le_compat_r; [exact Hh | lra]).
  unfold Qdiv. revert Ha Hb.
  generalize (vw * / zoom t) (vh * / zoom t) (vw' * / zoom t) (vh' * / zoom t)
             (100 * / zoom t).
  intros a b a' b' d Ha Hb (H1 & H2 & H3 & H4). repeat apply conj; lra.
Qed.

(** ** Web vitals *)

Lemma report_snoc (metrics : list Tracing.Metric) (m : Tracing.Metric)
    (st : Tracing.Instruments) :
  Tracing.report (metrics ++ [m]) st
  = Tracing.recordWebVitalsMetric m (Tracing.report metrics st).
Proof. unfold Tracing.report. now rewrite fold_left_app. Qed.

Lemma valuesNamed_snoc (n : string) (metrics : list Tracing.Metric) (m : Tracing.Metric) :
  Tracing.valuesNamed n (metrics ++ [m])
  = Tracing.valuesNamed n metrics ++
    (if decide (Tracing.name m = n) then [Tracing.value m] else []).
Proof.
  unfold Tracing.valuesNamed. rewrite filter_app, fmap_app. f_equal.
  rewrite filter_cons, filter_nil. now destruct (decide _).
Qed.

(** X20: whatever metrics the web-vitals library reports, the LCP, TTFB
    and FCP histograms hold exactly the values of the metrics of that name in
    the order reported, the FID histogram is never recorded to, and the names
    warned about as unhandled are exactly those other than LCP, CLS, TTFB
    and FCP. *)
Theorem X20_vitals_go_to_their_histogram (metrics : list Tracing.Metric) :
  let st := Tracing.report metrics Tracing.registered in
  fst <$> Tracing.lcpMetric st = Tracing.valuesNamed "LCP" metrics /\
  fst <$> Tracing.ttfbMetric st = Tracing.valuesNamed "TTFB" metrics /\
  fst <$> Tracing.fcpMetric st = Tracing.valuesNamed "FCP" metrics /\
  Tracing.fidMetric st = [] /\
  Tracing.unhandled st =
    filter (fun n => n <> "LCP" /\ n <> "CLS" /\ n <> "TTFB" /\ n <> "FCP")
           (Tracing.name <$> metrics).
Proof.
  cbn zeta. induction metrics as [| m metrics IH] using rev_ind.
  - repeat split.
  - destruct IH as (I1 & I2 & I3 & I4 & I5).
    rewrite report_snoc, !valuesNamed_snoc, fmap_app, filter_app.
    cbn [fmap list_fmap]. rewrite filter_cons, filter_nil.
    unfold Tracing.recordWebVitalsMetric.
    destruct (String.eqb_spec (Tracing.name m) "LCP") as [E1 | E1].
    { rewrite E1. cbn. rewrite fmap_app, I1, I2, I3, I4, I5, !app_nil_r.
      repeat split. }
    destruct (String.eqb_spec (Tracing.name m) "CLS") as [E2 | E2].
    { rewrite E2. cbn. rewrite I1, I2, I3, I4, I5, !app_nil_r.
      repeat split. }
    destruct (String.eqb_spec (Tracing.name m) "TTFB") as [E3 | E3].
    { rewrite E3. cbn. rewrite fmap_app, I1, I2, I3, I4, I5, !app_nil_r.
      repeat split. }
    destruct (String.eqb_spec (Tracing.name m) "FCP") as [E4 | E4].
    { rewrite E4. cbn. rewrite fmap_app, I1, I2, I3, I4, I5, !app_nil_r.
      repeat split. }
    cbn. rewrite I1, I2, I3, I4, I5.
    destruct (decide (Tracing.name m = "LCP")); [contradiction |].
    destruct (decide (Tracing.name m = "TTFB")); [contradiction |].
    destruct (decide (Tracing.name m = "FCP")); [contradiction |].
    rewrite !app_nil_r. repeat split.
    destruct (decide _) as [_ | H]; [reflexivity |]. exfalso. apply H. auto.
Qed.

(** X21: the CLS gauge observes the value of the CLS metric reported
    last, and 0 as long as none has been reported. *)
Theorem X21_cls_gauge_observes_last_value (metrics : list Tracing.Metric) :
  Tracing.observeCls (Tracing.report metrics Tracing.registered)
  = List.last (Tracing.valuesNamed "CLS" metrics) 0.
Proof.
  induction metrics as [| m metrics IH] using rev_ind; [reflexivity |].
  rewrite report_snoc, valuesNamed_snoc.
  unfold Tracing.observeCls, Tracing.recordWebVitalsMetric in *.
  destruct (String.eqb_spec (Tracing.name m) "LCP") as [E1 | E1].
  { destruct (decide (Tracing.name m = "CLS")) as [H | _]; [congruence |].
    cbn [Tracing.latestClsValue]. now rewrite app_nil_r. }
  destruct (String.eqb_spec (Tracing.name m) "CLS") as [E2 | E2].
  { destruct (decide (Tracing.name m = "CLS")) as [_ | H]; [| contradiction].
    cbn [Tracing.latestClsValue]. now rewrite last_last. }
  destruct (decide (Tracing.name m = "CLS")); [contradiction |].
  rewrite app_nil_r.
  destruct (Tracing.name m =? "TTFB")%string; [exact IH |].
  destruct (Tracing.name m =? "FCP")%string; exact IH.
Qed.

(** ** More concrete runs *)

(** A stream in which every sample is one half. *)
Lemma unit_samples_half : unit_samples (fun _ => 1 # 2).
Proof. intros i. split; [discriminate | reflexivity]. Qed.

Lemma reachable_after_wheel :
  reachable numerator36 (handleWheel 100 50 (-1) 0 0 (mounted 800 600 800 600)).
Proof.
  apply (reach_step numerator36 _ (mounted 800 600 800 600) (Wheel 100 50 (-1) 0 0));
    [apply reach_mounted | exact I | reflexivity].
Qed.

Lemma reachable_after_resize :
  reachable numerator36 (handleResize 1024 768 (mounted 800 600 800 600)).
Proof.
  apply (reach_step numerator36 _ (mounted 800 600 800 600) (Resize 1024 768));
    [apply reach_mounted | exact I | reflexivity].
Qed.

Lemma timers_tracked_mounted cw ch iw ih : timers_tracked (mounted cw ch iw ih).
Proof. split; [discriminate | now left]. Qed.

Lemma X1_zoom_stays_in_range_witness :
  zoom_in_range (handleWheel 100 50 (-1) 0 0 (mounted 800 600 800 600)).
Proof. apply (X1_zoom_stays_in_range numerator36), reachable_after_wheel. Defined.

Lemma X3_one_pending_call_at_a_time_witness :
  (length (inflight (runtime (handleResize 1024 768 (mounted 800 600 800 600)))) <= 1)%nat.
Proof.
  apply (X3_one_pending_call_at_a_time numerator36), reachable_after_resize.
Defined.

Lemma X4_no_error_shown_while_loading_witness :
  apiError (stores (handleResize 1024 768 (mounted 800 600 800 600))) = None.
Proof.
  apply (X4_no_error_shown_while_loading numerator36).
  - apply reachable_after_resize.
  - reflexivity.
Defined.

Lemma X5_store_only_grows_witness :
  match step numerator36 (mounted 800 600 800 600) (Settle 0 "now" distinct_samples) with
  | Some s' => currentWidgets (mounted 800 600 800 600) `prefix_of` currentWidgets s'
  | None => False
  end.
Proof.
  destruct (step _ _ _) as [s' |] eqn:E.
  - apply (X5_store_only_grows numerator36 _ _ _ (reach_mounted _ _ _ _ _ _) E).
  - vm_compute in E. discriminate E.
Defined.

Lemma X6_arrays_are_never_mutated_witness :
  match step numerator36 (mounted 800 600 800 600) (Settle 0 "now" distinct_samples) with
  | Some s' => deref (heap (runtime s')) 0 = []
  | None => False
  end.
Proof.
  destruct (step _ _ _) as [s' |] eqn:E.
  - rewrite (X6_arrays_are_never_mutated numerator36 _ _ _ 0%nat E); [reflexivity |].
    cbn. lia.
  - vm_compute in E. discriminate E.
Defined.

Lemma X7_burst_leaves_one_timeout_witness :
  timeouts (runtime (burst ([Resize 1000 700; MouseDown 0 5 5; MouseMove 9 9]
                              ++ [Resize 1024 768])
                       (mounted 800 600 800 600))) = [3%nat].
Proof.
  exact (proj1 (proj2 (X7_burst_leaves_one_timeout
                        [Resize 1000 700; MouseDown 0 5 5; MouseMove 9 9]
                        (mounted 800 600 800 600)
                        (timers_tracked_mounted 800 600 800 600))) 1024 768).
Defined.

Lemma X8_settled_fetch_forgets_its_timeout_witness :
  let s := handleResize 900 700
             (fetchWidgetsForCurrentView (with_canvas (set_viewport 800 600) loaded)) in
  match step numerator36 s (Settle 0 "now" (fun _ => 1 # 2)) with
  | Some s1 => timeouts (runtime (handleResize 1024 768 s1)) = [1%nat; 2%nat]
  | None => False
  end.
Proof.
  cbn zeta. destruct (step _ _ _) as [s1 |] eqn:E.
  - destruct (X8_settled_fetch_forgets_its_timeout numerator36
                (handleResize 900 700
                   (fetchWidgetsForCurrentView (with_canvas (set_viewport 800 600) loaded)))
                s1 0 "now" (fun _ => 1 # 2)
                (mkPending Interaction 1 (800 / 2 / 1 - 0) (600 / 2 / 1 - 0) 1)
                eq_refl eq_refl E) as (_ & _ & H).
    exact (H 1024 768).
  - vm_compute in E. discriminate E.
Defined.

Lemma X9_unmount_cancels_the_timeout_witness :
  timeouts (runtime (unmount (handleResize 1024 768 (mounted 800 600 800 600)))) = [].
Proof.
  apply X9_unmount_cancels_the_timeout.
  split; [discriminate |]. right. exists 1%nat. repeat split. discriminate.
Defined.

Lemma X12_page_fetch_resolves_witness :
  exists s',
    step numerator36 (mounted 800 600 800 600) (Settle 0 "now" distinct_samples) = Some s' /\
    isLoadingWidgets (stores s') = false.
Proof.
  edestruct (X12_page_fetch_resolves numerator36 (mounted 800 600 800 600) 0
               "now" distinct_samples) as (s' & H1 & H2 & _).
  - apply reach_mounted.
  - vm_compute. reflexivity.
  - discriminate.
  - exists s'. split; assumption.
Defined.

Lemma X13_page_fetch_rejects_witness :
  exists s',
    step numerator36 (mounted 800 600 800 600) (Settle 0 "now" (fun _ => 1 # 10)) = Some s' /\
    currentWidgets s' = [] /\
    apiError (stores s') = Some "Network timeout. Please check your connection.".
Proof.
  edestruct (X13_page_fetch_rejects numerator36 (mounted 800 600 800 600) 0
               "now" (fun _ => 1 # 10)) as (s' & H1 & H2 & _ & H4 & _).
  - vm_compute. reflexivity.
  - discriminate.
  - exists s'. repeat split; assumption.
Defined.

Lemma X14_resolved_batch_shape_witness :
  match snd (fst (fetchAllWidgets numerator36 0.15 "now" 2 0 0 1 (fun _ => 1 # 2) 0%nat)) with
  | Resolved ws => length ws = 2%nat
  | Rejected _ => False
  end.
Proof.
  destruct (snd (fst _)) as [ws | e] eqn:E.
  - exact (proj1 (X14_resolved_batch_shape numerator36 0.15 "now" 2%nat 0 0 1
                    (fun _ => 1 # 2) 0%nat ws unit_samples_half eq_refl E)).
  - vm_compute in E. discriminate E.
Defined.

Lemma X15_resolved_widget_shape_witness :
  match snd (fst (fetchWidgetData 0.15 "now" "w-1" (fun _ => 1 # 2) 0%nat)) with
  | Resolved w => id w = "w-1"
  | Rejected _ => False
  end.
Proof.
  destruct (snd (fst _)) as [w | e] eqn:E.
  - exact (proj1 (X15_resolved_widget_shape 0.15 "now" "w-1" (fun _ => 1 # 2) 0%nat w
                    unit_samples_half E)).
  - vm_compute in E. discriminate E.
Defined.

Lemma X16_rejection_is_a_template_witness :
  match snd (fst (fetchAllWidgets numerator36 1 "now" 2 0 0 1 (fun _ => 1 # 2) 0%nat)) with
  | Resolved _ => False
  | Rejected e => timestamp e = "now" /\ requestParams e = BatchParams 2 0 0 1
  end.
Proof.
  destruct (snd (fst _)) as [ws | e] eqn:E.
  - vm_compute in E. discriminate E.
  - exact (proj2 (X16_rejection_is_a_template numerator36 1 "now" 2%nat 0 0 1
                    (fun _ => 1 # 2) 0%nat e unit_samples_half E)).
Defined.

Lemma X17_latency_bounds_witness :
  500 <= fst (fst (fetchAllWidgets numerator36 0.15 "now" 2 0 0 1 (fun _ => 1 # 2) 0%nat)).
Proof.
  exact (proj1 (proj2 (X17_latency_bounds numerator36 0.15 "now" (fun _ => 1 # 2) 0%nat
                         unit_samples_half) 2%nat 0 0 1)).
Defined.

Lemma X18_spawned_widgets_pass_culling_witness :
  let t := mkTransform 30 (-20) 2 in
  match fst (fetchAllWidgets_settle numerator36 0.15 "now" 3
               (800 / 2 / zoom t - panX t) (600 / 2 / zoom t - panY t) (zoom t)
               (fun _ => 1 # 2) 0%nat) with
  | Resolved ws => Forall (fun w => isWidgetInView 800 600 w t = true) ws
  | Rejected _ => False
  end.
Proof.
  cbn zeta. destruct (fst _) as [ws | e] eqn:E.
  - apply Forall_forall. intros w Hw.
    apply (X18_spawned_widgets_pass_culling numerator36 800 600 (mkTransform 30 (-20) 2)
             0.15 "now" 3%nat (fun _ => 1 # 2) 0%nat ws w unit_samples_half);
      [reflexivity | discriminate | discriminate | exact E | exact Hw].
  - vm_compute in E. discriminate E.
Defined.

Lemma X19_culling_monotone_in_viewport_witness :
  isWidgetInView 1024 768 (mkWidget "a" "Alpha Widget #1" "text" 700 500)
    (mkTransform 0 0 1) = true.
Proof.
  apply (X19_culling_monotone_in_viewport 800 600 1024 768);
    [reflexivity | discriminate | discriminate | reflexivity].
Defined.
